(** * PM5 telemetry codec and connection session

    A shallow embedding of the JavaScript sources of the repository.

    - [parsers.js]: [readInt16LE], [readInt24LE], [parseGeneralStatus],
      [parseAdditionalStatus], [parseStrokeData], [parseSplitIntervalData],
      [parseMultiplexedData].
    - [device.js], class [PM5Device].  The repository holds four variants of
      the class: the plain one; one with the control channel
      ([sendControlBytes], RX notifications); one that adds the characteristic
      monitor ([discoverNotifyCapableCharacteristics],
      [subscribeToCharacteristic], [unsubscribeFromCharacteristic]); and the
      CSAFE one, whose listeners are bound methods
      ([handleGeneralStatusUpdate], ...).  The methods below are those of the
      variant with the monitor, which contains the first two; the listeners
      of the CSAFE variant are embedded next to them.
    - [csafe.js] and [constants.js] are not among the sources.  The constants
      are parameters; the command codec is modelled from the specification.

    JavaScript numbers are IEEE-754 binary64 values.  Integer-valued
    quantities (bytes, offsets, assembled 16- and 24-bit fields) are kept as
    [Z] or [nat]; every product with a scale factor is a binary64 product,
    computed with primitive floats. *)

From Stdlib Require Import ZArith Lia Floats Uint63 Ascii.
From stdpp Require Import gmap strings list.

Set Warnings "-inexact-float".
Local Open Scope Z_scope.

(** ** JavaScript numerics *)

Module JS.

(** [ToInt32]: the conversion applied to both operands and to the result of
    the bitwise operators. *)
Definition ToInt32 (z : Z) : Z :=
  let m := z mod 2 ^ 32 in
  if m <? 2 ^ 31 then m else m - 2 ^ 32.

(** [a << n]: the shift count is taken modulo 32, the result wraps to a
    signed 32-bit integer. *)
Definition shl (a n : Z) : Z :=
  ToInt32 (Z.shiftl (ToInt32 a) (n mod 32)).

(** A non-negative integer as a Number (exact below 2^53). *)
Definition number (z : Z) : float := PrimFloat.of_uint63 (Uint63.of_Z z).

(** [raw * factor] on Numbers. *)
Definition times (raw : Z) (factor : float) : float :=
  PrimFloat.mul (number raw) factor.

End JS.

Arguments JS.shl : simpl never.
Arguments JS.times : simpl never.

(** ** Exceptions and results *)

Definition uuid := string.

(** The record shapes of [parsers.js]. *)
Inductive record_kind :=
| general_status | additional_status | stroke_data | split_data.

(** A GATT characteristic object: the service it was obtained from and its
    own UUID. *)
Abbreviation characteristic := (uuid * uuid)%type.

(** Asynchronous platform (Web Bluetooth) requests issued by the device
    class; each one either resolves or rejects. *)
Inductive platform_call :=
| GattConnect
| GetPrimaryService (service : uuid)
| GetPrimaryServices
| GetCharacteristic (service : uuid) (u : uuid)
| GetCharacteristics (service : uuid)
| StartNotifications (c : characteristic)
| StopNotifications (c : characteristic)
| WriteValue (c : characteristic) (bytes : list Z).

(** Messages of the [new Error(...)] values built by the sources, with the
    values interpolated into the template kept as arguments. *)
Inductive message :=
| InvalidDataLength (kind : record_kind) (actual expected : nat)
| HexOddLength
| CharacteristicNotFound (u : uuid).

Inductive exn :=
| Error (m : message)
| RangeError                      (* DataView access outside the view *)
| TypeError                       (* property read on undefined or null *)
| Rejected (c : platform_call).   (* a platform promise that rejected *)

Definition result (A : Type) : Type := (exn + A)%type.

Definition ret {A} (a : A) : result A := inr a.
Definition throw {A} (e : exn) : result A := inl e.
Definition bind {A B} (c : result A) (k : A -> result B) : result B :=
  match c with
  | inl e => inl e
  | inr a => k a
  end.

Notation "'let*' x ':=' c 'in' k" := (bind c (fun x => k))
  (at level 10, x name, c at level 100, k at level 200).

(** ** DataView *)

(** What a [DataView] shows of its buffer: the [byteLength] bytes from
    [byteOffset] on, in order.  [getUint8], [getUint16] and [byteLength] see
    nothing else, and the parsers use nothing else. *)
Abbreviation DataView := (list Byte.byte).

Definition byteLength (dataView : DataView) : nat := length dataView.

Definition u8 (b : Byte.byte) : Z := Z.of_N (Byte.to_N b).

Definition getUint8 (dataView : DataView) (offset : nat) : result Z :=
  match dataView !! offset with
  | Some b => ret (u8 b)
  | None => throw RangeError
  end.

Definition getUint16 (dataView : DataView) (offset : nat)
    (littleEndian : bool) : result Z :=
  match dataView !! offset, dataView !! (offset + 1)%nat with
  | Some b0, Some b1 =>
      ret (if littleEndian then u8 b0 + 256 * u8 b1 else 256 * u8 b0 + u8 b1)
  | _, _ => throw RangeError
  end.

Arguments u8 : simpl never.

(** The [DataView] object of a notification ([event.target.value]) with the
    [ArrayBuffer] it is a view of: the buffer holds the [byteOffset] bytes of
    [skipped], then the bytes of the [view], then those of [trailing]. *)
Record CharacteristicValue := {
  skipped : list Byte.byte;
  view : DataView;
  trailing : list Byte.byte
}.

(** [dataView.buffer] *)
Definition buffer (value : CharacteristicValue) : list Byte.byte :=
  skipped value ++ view value ++ trailing value.

(** A view of a whole buffer: [new DataView(buffer)]. *)
Definition whole (bytes : list Byte.byte) : CharacteristicValue :=
  {| skipped := []; view := bytes; trailing := [] |}.

(** ** parsers.js *)

Definition readInt16LE (dataView : DataView) (offset : nat) : result Z :=
  getUint16 dataView offset true.

Definition readInt24LE (dataView : DataView) (offset : nat) : result Z :=
  let* b0 := getUint8 dataView offset in
  let* b1 := getUint8 dataView (offset + 1)%nat in
  let* b2 := getUint8 dataView (offset + 2)%nat in
  ret (b0 + JS.shl b1 8 + JS.shl b2 16).

Record GeneralStatus := {
  gs_elapsed_time : float;
  gs_distance : float;
  gs_workout_type : Z;
  gs_interval_type : Z;
  gs_workout_state : Z;
  gs_rowing_state : Z;
  gs_stroke_state : Z;
  gs_total_work_distance : Z;
  gs_workout_duration : Z;
  gs_workout_duration_type : Z;
  gs_drag_factor : Z
}.

Record AdditionalStatus := {
  as_elapsed_time : float;
  as_speed : float;
  as_stroke_rate : Z;
  as_heart_rate : Z;
  as_current_pace : float;
  as_average_pace : float;
  as_rest_distance : Z;
  as_rest_time : float
}.

Record StrokeData := {
  sd_elapsed_time : float;
  sd_distance : float;
  sd_drive_length : float;
  sd_drive_time : float;
  sd_stroke_recovery_time : float;
  sd_stroke_distance : float;
  sd_peak_drive_force : float;
  sd_average_drive_force : float;
  sd_work_per_stroke : float;
  sd_stroke_count : Z
}.

Record SplitData := {
  sp_elapsed_time : float;
  sp_distance : float;
  sp_split_time : float;
  sp_split_distance : float;
  sp_rest_time : Z;
  sp_rest_distance : Z;
  sp_split_type : Z;
  sp_split_number : Z
}.

Definition mux_offset (isMultiplexed : bool) : nat :=
  if isMultiplexed then 1%nat else 0%nat.

Definition parseGeneralStatus (dataView : DataView) (isMultiplexed : bool)
    : result GeneralStatus :=
  let offset := mux_offset isMultiplexed in
  if (byteLength dataView <? 19 + offset)%nat then
    throw (Error (InvalidDataLength general_status
                    (byteLength dataView) (19 + offset)))
  else
    let* elapsed_time := readInt24LE dataView (offset + 0)%nat in
    let* distance := readInt24LE dataView (offset + 3)%nat in
    let* workout_type := getUint8 dataView (offset + 6)%nat in
    let* interval_type := getUint8 dataView (offset + 7)%nat in
    let* workout_state := getUint8 dataView (offset + 8)%nat in
    let* rowing_state := getUint8 dataView (offset + 9)%nat in
    let* stroke_state := getUint8 dataView (offset + 10)%nat in
    let* total_work_distance := readInt24LE dataView (offset + 11)%nat in
    let* workout_duration := readInt24LE dataView (offset + 14)%nat in
    let* workout_duration_type := getUint8 dataView (offset + 17)%nat in
    let* drag_factor := getUint8 dataView (offset + 18)%nat in
    ret {| gs_elapsed_time := JS.times elapsed_time 0.01;
           gs_distance := JS.times distance 0.1;
           gs_workout_type := workout_type;
           gs_interval_type := interval_type;
           gs_workout_state := workout_state;
           gs_rowing_state := rowing_state;
           gs_stroke_state := stroke_state;
           gs_total_work_distance := total_work_distance;
           gs_workout_duration := workout_duration;
           gs_workout_duration_type := workout_duration_type;
           gs_drag_factor := drag_factor |}.

Definition parseAdditionalStatus (dataView : DataView) (isMultiplexed : bool)
    : result AdditionalStatus :=
  let offset := mux_offset isMultiplexed in
  if (byteLength dataView <? 16 + offset)%nat then
    throw (Error (InvalidDataLength additional_status
                    (byteLength dataView) (16 + offset)))
  else
    let* elapsed_time := readInt24LE dataView (offset + 0)%nat in
    let* speed := readInt16LE dataView (offset + 3)%nat in
    let* stroke_rate := getUint8 dataView (offset + 5)%nat in
    let* heart_rate := getUint8 dataView (offset + 6)%nat in
    let* current_pace := readInt16LE dataView (offset + 7)%nat in
    let* average_pace := readInt16LE dataView (offset + 9)%nat in
    let* rest_distance := readInt16LE dataView (offset + 11)%nat in
    let* rest_time := readInt24LE dataView (offset + 13)%nat in
    ret {| as_elapsed_time := JS.times elapsed_time 0.01;
           as_speed := JS.times speed 0.001;
           as_stroke_rate := stroke_rate;
           as_heart_rate := heart_rate;
           as_current_pace := JS.times current_pace 0.01;
           as_average_pace := JS.times average_pace 0.01;
           as_rest_distance := rest_distance;
           as_rest_time := JS.times rest_time 0.01 |}.

Definition parseStrokeData (dataView : DataView) (isMultiplexed : bool)
    : result StrokeData :=
  let offset := mux_offset isMultiplexed in
  if (byteLength dataView <? 20 + offset)%nat then
    throw (Error (InvalidDataLength stroke_data
                    (byteLength dataView) (20 + offset)))
  else
    let* elapsed_time := readInt24LE dataView (offset + 0)%nat in
    let* distance := readInt24LE dataView (offset + 3)%nat in
    let* drive_length := getUint8 dataView (offset + 6)%nat in
    let* drive_time := getUint8 dataView (offset + 7)%nat in
    let* stroke_recovery_time := readInt16LE dataView (offset + 8)%nat in
    let* stroke_distance := readInt16LE dataView (offset + 10)%nat in
    let* peak_drive_force := readInt16LE dataView (offset + 12)%nat in
    let* average_drive_force := readInt16LE dataView (offset + 14)%nat in
    let* work_per_stroke := readInt16LE dataView (offset + 16)%nat in
    let* stroke_count := readInt16LE dataView (offset + 18)%nat in
    ret {| sd_elapsed_time := JS.times elapsed_time 0.01;
           sd_distance := JS.times distance 0.1;
           sd_drive_length := JS.times drive_length 0.01;
           sd_drive_time := JS.times drive_time 0.01;
           sd_stroke_recovery_time := JS.times stroke_recovery_time 0.01;
           sd_stroke_distance := JS.times stroke_distance 0.01;
           sd_peak_drive_force := JS.times peak_drive_force 0.1;
           sd_average_drive_force := JS.times average_drive_force 0.1;
           sd_work_per_stroke := JS.times work_per_stroke 0.1;
           sd_stroke_count := stroke_count |}.

Definition parseSplitIntervalData (dataView : DataView) (isMultiplexed : bool)
    : result SplitData :=
  let offset := mux_offset isMultiplexed in
  if (byteLength dataView <? 18 + offset)%nat then
    throw (Error (InvalidDataLength split_data
                    (byteLength dataView) (18 + offset)))
  else
    let* elapsed_time := readInt24LE dataView (offset + 0)%nat in
    let* distance := readInt24LE dataView (offset + 3)%nat in
    let* split_time := readInt24LE dataView (offset + 6)%nat in
    let* split_distance := readInt24LE dataView (offset + 9)%nat in
    let* rest_time := readInt16LE dataView (offset + 12)%nat in
    let* rest_distance := readInt16LE dataView (offset + 14)%nat in
    let* split_type := getUint8 dataView (offset + 16)%nat in
    let* split_number := getUint8 dataView (offset + 17)%nat in
    ret {| sp_elapsed_time := JS.times elapsed_time 0.01;
           sp_distance := JS.times distance 0.1;
           sp_split_time := JS.times split_time 0.1;
           sp_split_distance := JS.times split_distance 0.1;
           sp_rest_time := rest_time;
           sp_rest_distance := rest_distance;
           sp_split_type := split_type;
           sp_split_number := split_number |}.

(** The [data] property of the object returned by [parseMultiplexedData]:
    one of the four records, or [null]. *)
Inductive mux_data :=
| DataGeneralStatus (d : GeneralStatus)
| DataAdditionalStatus (d : AdditionalStatus)
| DataStrokeData (d : StrokeData)
| DataSplitData (d : SplitData)
| DataNull.

(** The object literal [{ type, uuid, data }]; [mx_uuid] is [None] where the
    literal has no [uuid] property. *)
Record Multiplexed := {
  mx_type : string;
  mx_uuid : option Z;
  mx_data : mux_data
}.

(** The [console.warn] of the default branch only writes a diagnostic line
    and is left out of the returned value. *)
Definition parseMultiplexedData (dataView : DataView) : result Multiplexed :=
  let* uuid := getUint8 dataView 0 in
  if uuid =? 0x31 then
    let* d := parseGeneralStatus dataView true in
    ret {| mx_type := "general_status"; mx_uuid := None;
           mx_data := DataGeneralStatus d |}
  else if uuid =? 0x32 then
    let* d := parseAdditionalStatus dataView true in
    ret {| mx_type := "additional_status"; mx_uuid := None;
           mx_data := DataAdditionalStatus d |}
  else if uuid =? 0x35 then
    let* d := parseStrokeData dataView true in
    ret {| mx_type := "stroke_data"; mx_uuid := None;
           mx_data := DataStrokeData d |}
  else if uuid =? 0x37 then
    let* d := parseSplitIntervalData dataView true in
    ret {| mx_type := "split_data"; mx_uuid := None;
           mx_data := DataSplitData d |}
  else
    ret {| mx_type := "unknown"; mx_uuid := Some uuid; mx_data := DataNull |}.

(** A decoded record of any of the four shapes, and the decoder selected by
    the record kind (used to state properties shared by the four parsers). *)
Inductive TelemetryRecord :=
| RGeneralStatus (d : GeneralStatus)
| RAdditionalStatus (d : AdditionalStatus)
| RStrokeData (d : StrokeData)
| RSplitData (d : SplitData).

Definition parse_record (kind : record_kind) (dataView : DataView)
    (isMultiplexed : bool) : result TelemetryRecord :=
  match kind with
  | general_status =>
      let* d := parseGeneralStatus dataView isMultiplexed in ret (RGeneralStatus d)
  | additional_status =>
      let* d := parseAdditionalStatus dataView isMultiplexed in ret (RAdditionalStatus d)
  | stroke_data =>
      let* d := parseStrokeData dataView isMultiplexed in ret (RStrokeData d)
  | split_data =>
      let* d := parseSplitIntervalData dataView isMultiplexed in ret (RSplitData d)
  end.

(** The literal in the length guard of each parser. *)
Definition min_length (kind : record_kind) : nat :=
  match kind with
  | general_status => 19
  | additional_status => 16
  | stroke_data => 20
  | split_data => 18
  end.

(** The tags of the [switch] in [parseMultiplexedData]. *)
Definition known_tag (tag : Z) : bool :=
  (tag =? 0x31) || (tag =? 0x32) || (tag =? 0x35) || (tag =? 0x37).

(** The notification of the worked example:
    64 00 00 E8 03 00 01 00 01 01 02 00 00 00 00 00 00 00 73. *)
Definition sample_general_status : DataView :=
  [Byte.x64; Byte.x00; Byte.x00; Byte.xe8; Byte.x03; Byte.x00; Byte.x01;
   Byte.x00; Byte.x01; Byte.x01; Byte.x02; Byte.x00; Byte.x00; Byte.x00;
   Byte.x00; Byte.x00; Byte.x00; Byte.x00; Byte.x73].

(** ** The device class (device.js)

    - A consumer callback slot ([onWorkoutData], ...) is [true] when a function
      is assigned to it.  Calling it is recorded in the trace; the consumer
      function is taken to return normally and not to call back into the
      session.
    - Every [await] of a platform promise is a [request]: it is recorded and
      then resolves or rejects as the [oracle] of the invocation says.  An
      async method runs to completion; interleavings at [await] are not
      represented.
    - A characteristic object is identified by its service and its UUID:
      within a connection the platform hands out the same object for the same
      characteristic, so listeners added through different calls of
      [getCharacteristic] accumulate on it.
    - [console.error] lines are recorded; [console.log] and [console.warn]
      lines are not.
    - [deviceInfo] is not part of the state; [readDeviceInformation], which
      catches every exception and assigns [deviceInfo] only, is the identity
      on it.  [disconnect], which only asks the platform to drop the link,
      is left out. *)

(** The values the class reads from [constants.js]: [PM5_SERVICES],
    [ROWING_CHARACTERISTICS] and [CONTROL_CHARACTERISTICS]. *)
Record constants := {
  PM5_SERVICES_INFORMATION : uuid;
  PM5_SERVICES_CONTROL : uuid;
  PM5_SERVICES_ROWING : uuid;
  GENERAL_STATUS : uuid;
  ADDITIONAL_STATUS : uuid;
  STROKE_DATA : uuid;
  SPLIT_INTERVAL_DATA : uuid;
  MULTIPLEXED_INFORMATION : uuid;
  TRANSMIT : uuid;
  RECEIVE : uuid
}.

(** The function objects that the class registers as event listeners. *)
Inductive handler :=
(* arrow functions of startRowingDataNotifications *)
| OnGeneralStatus
| OnAdditionalStatus
| OnStrokeData
| OnSplitData
(* arrow function of startControlRxNotifications *)
| OnControlRx
(* closure of subscribeToCharacteristic, capturing [uuid] *)
| OnCharacteristic (u : uuid)
(* bound methods of the CSAFE variant of the class *)
| HandleGeneralStatusUpdate
| HandleAdditionalStatusUpdate
| HandleStrokeDataUpdate
| HandleSplitDataUpdate
| HandleMultiplexedDataUpdate.

(** A function object: its identity and its code.  Each evaluation of an
    arrow function or of [bind] yields a new identity. *)
Record listener := { fn_id : nat; fn_code : handler }.

#[global] Instance handler_eq_dec : EqDecision handler.
Proof. solve_decision. Defined.

#[global] Instance listener_eq_dec : EqDecision listener.
Proof. solve_decision. Defined.

(** [this.services]: the three properties the class assigns. *)
Record services_t := {
  information : option uuid;
  control : option uuid;
  rowing : option uuid
}.

Definition no_services : services_t :=
  {| information := None; control := None; rowing := None |}.

(** An entry of [notifyCapableCharacteristics]. *)
Record charInfo := {
  ci_uuid : uuid;
  ci_serviceUuid : uuid;
  ci_characteristic : characteristic
}.

(** [activeCharacteristicSubscription]. *)
Record subscription := {
  sub_uuid : uuid;
  sub_characteristic : characteristic;
  sub_handler : listener
}.

(** The "Event handlers" properties: is a consumer function assigned? *)
Record callbacks := {
  onDisconnected : bool;
  onWorkoutData : bool;
  onStrokeData : bool;
  onSplitData : bool;
  onControlRxData : bool;
  onCharacteristicData : bool
}.

Definition no_callbacks : callbacks :=
  {| onDisconnected := false; onWorkoutData := false; onStrokeData := false;
     onSplitData := false; onControlRxData := false;
     onCharacteristicData := false |}.

Record PM5Device := {
  server : bool;                         (* [this.server] is not null *)
  services : services_t;
  characteristics : list (string * characteristic);
  isConnected : bool;
  on : callbacks;
  notifyCapableCharacteristics : list charInfo;
  activeCharacteristicSubscription : option subscription
}.

(** The object passed to [onWorkoutData]. *)
Inductive workout_data :=
| WorkoutGeneralStatus (d : GeneralStatus)        (* type: 'general_status' *)
| WorkoutAdditionalStatus (d : AdditionalStatus). (* type: 'additional_status' *)

(** What the session does that is visible outside it.  [timestamp] is [None]
    where the delivered object has no such property; the [hexString]
    property of the control and monitor payloads, which repeats [bytes] in
    hexadecimal, and the [raw] property of the monitor payload, which is the
    value of the event itself, are left out. *)
Inductive effect :=
| CallOnDisconnected
| CallOnWorkoutData (timestamp : option Z) (d : workout_data)
| CallOnStrokeData (timestamp : option Z) (d : StrokeData)
| CallOnSplitData (timestamp : option Z) (d : SplitData)
| CallOnControlRxData (timestamp : Z) (bytes : list Z)
| CallOnCharacteristicData (u : uuid) (timestamp : Z) (bytes : list Z)
| ConsoleError (label : string) (e : exn)
| Issued (c : platform_call)
| Uncaught (e : exn).        (* an exception leaving an event listener *)

(** Listener lists of the characteristic objects, and the supply of function
    identities. *)
Record platform := {
  listeners : gmap characteristic (list listener);
  next_function : nat
}.

Record world := {
  this : PM5Device;
  plat : platform;
  trace : list effect          (* oldest first *)
}.

(** *** Field updates *)

Definition set_server (v : bool) (d : PM5Device) : PM5Device :=
  {| server := v; services := services d;
     characteristics := characteristics d; isConnected := isConnected d;
     on := on d;
     notifyCapableCharacteristics := notifyCapableCharacteristics d;
     activeCharacteristicSubscription := activeCharacteristicSubscription d |}.

Definition set_services (v : services_t) (d : PM5Device) : PM5Device :=
  {| server := server d; services := v;
     characteristics := characteristics d; isConnected := isConnected d;
     on := on d;
     notifyCapableCharacteristics := notifyCapableCharacteristics d;
     activeCharacteristicSubscription := activeCharacteristicSubscription d |}.

Definition set_characteristics (v : list (string * characteristic))
    (d : PM5Device) : PM5Device :=
  {| server := server d; services := services d;
     characteristics := v; isConnected := isConnected d;
     on := on d;
     notifyCapableCharacteristics := notifyCapableCharacteristics d;
     activeCharacteristicSubscription := activeCharacteristicSubscription d |}.

Definition set_isConnected (v : bool) (d : PM5Device) : PM5Device :=
  {| server := server d; services := services d;
     characteristics := characteristics d; isConnected := v;
     on := on d;
     notifyCapableCharacteristics := notifyCapableCharacteristics d;
     activeCharacteristicSubscription := activeCharacteristicSubscription d |}.

Definition set_on (v : callbacks) (d : PM5Device) : PM5Device :=
  {| server := server d; services := services d;
     characteristics := characteristics d; isConnected := isConnected d;
     on := v;
     notifyCapableCharacteristics := notifyCapableCharacteristics d;
     activeCharacteristicSubscription := activeCharacteristicSubscription d |}.

Definition set_notifyCapableCharacteristics (v : list charInfo)
    (d : PM5Device) : PM5Device :=
  {| server := server d; services := services d;
     characteristics := characteristics d; isConnected := isConnected d;
     on := on d;
     notifyCapableCharacteristics := v;
     activeCharacteristicSubscription := activeCharacteristicSubscription d |}.

Definition set_activeCharacteristicSubscription (v : option subscription)
    (d : PM5Device) : PM5Device :=
  {| server := server d; services := services d;
     characteristics := characteristics d; isConnected := isConnected d;
     on := on d;
     notifyCapableCharacteristics := notifyCapableCharacteristics d;
     activeCharacteristicSubscription := v |}.

Definition set_information (v : option uuid) (s : services_t) : services_t :=
  {| information := v; control := control s; rowing := rowing s |}.
Definition set_control (v : option uuid) (s : services_t) : services_t :=
  {| information := information s; control := v; rowing := rowing s |}.
Definition set_rowing (v : option uuid) (s : services_t) : services_t :=
  {| information := information s; control := control s; rowing := v |}.

(** *** Computations over the world *)

Definition M (A : Type) : Type := world -> result A * world.

Definition mret {A} (a : A) : M A := fun w => (inr a, w).
Definition mthrow {A} (e : exn) : M A := fun w => (inl e, w).
Definition mbind {A B} (c : M A) (k : A -> M B) : M B :=
  fun w =>
    match c w with
    | (inl e, w') => (inl e, w')
    | (inr a, w') => k a w'
    end.

Notation "'let!' x ':=' c 'in' k" := (mbind c (fun x => k))
  (at level 10, x name, c at level 100, k at level 200).
Notation "c ';;' k" := (mbind c (fun _ => k))
  (at level 100, k at level 200, right associativity).

(** [try { body } catch (error) { handle error }] *)
Definition try_catch {A} (body : M A) (handle : exn -> M A) : M A :=
  fun w =>
    match body w with
    | (inl e, w') => handle e w'
    | (inr a, w') => (inr a, w')
    end.

Definition lift {A} (r : result A) : M A := fun w => (r, w).

Definition get_this : M PM5Device := fun w => (inr (this w), w).

Definition modify_this (f : PM5Device -> PM5Device) : M unit :=
  fun w => (inr tt, {| this := f (this w); plat := plat w; trace := trace w |}).

Definition emit (e : effect) : M unit :=
  fun w => (inr tt, {| this := this w; plat := plat w;
                       trace := trace w ++ [e] |}).

Definition console_error (label : string) (e : exn) : M unit :=
  emit (ConsoleError label e).

Definition when (b : bool) (c : M unit) : M unit :=
  if b then c else mret tt.

(** The outcomes of the platform requests during one invocation. *)
Definition oracle := platform_call -> bool.

Definition request (o : oracle) (c : platform_call) : M unit :=
  emit (Issued c) ;;
  if o c then mret tt else mthrow (Rejected c).

(** Reading a property of [undefined] or [null] raises a TypeError. *)
Definition defined {A} (v : option A) : M A :=
  match v with
  | Some a => mret a
  | None => mthrow TypeError
  end.

(** *** EventTarget *)

Definition listeners_of (c : characteristic) (p : platform) : list listener :=
  default [] (listeners p !! c).

(** Evaluating a function expression. *)
Definition new_function (code : handler) : M listener :=
  fun w =>
    let n := next_function (plat w) in
    (inr {| fn_id := n; fn_code := code |},
     {| this := this w;
        plat := {| listeners := listeners (plat w); next_function := S n |};
        trace := trace w |}).

(** [c.addEventListener('characteristicvaluechanged', l)]: appended unless
    the same function object is already registered. *)
Definition addEventListener (c : characteristic) (l : listener) : M unit :=
  fun w =>
    let ls := listeners_of c (plat w) in
    let ls' := if bool_decide (l ∈ ls) then ls else ls ++ [l] in
    (inr tt,
     {| this := this w;
        plat := {| listeners := <[c := ls']> (listeners (plat w));
                   next_function := next_function (plat w) |};
        trace := trace w |}).

(** [c.removeEventListener('characteristicvaluechanged', l)]. *)
Definition removeEventListener (c : characteristic) (l : listener) : M unit :=
  fun w =>
    let ls := listeners_of c (plat w) in
    (inr tt,
     {| this := this w;
        plat := {| listeners :=
                     <[c := filter (fun l' => l' <> l) ls]> (listeners (plat w));
                   next_function := next_function (plat w) |};
        trace := trace w |}).

(** *** Hexadecimal input of [sendControlBytes] *)

(** The value of a character matched by [[0-9a-fA-F]]. *)
Definition hex_digit_value (a : ascii) : option Z :=
  let n := Z.of_nat (nat_of_ascii a) in
  if (48 <=? n) && (n <=? 57) then Some (n - 48)
  else if (97 <=? n) && (n <=? 102) then Some (n - 87)
  else if (65 <=? n) && (n <=? 70) then Some (n - 55)
  else None.

Definition is_hex_digit (a : ascii) : bool :=
  match hex_digit_value a with Some _ => true | None => false end.

(** [hexString.replace(/[^0-9a-fA-F]/g, '')] *)
Definition cleanHex (hexString : string) : list ascii :=
  List.filter is_hex_digit (String.list_ascii_of_string hexString).

(** [s.substr(start, len)] *)
Definition substr (s : list ascii) (start len : nat) : list ascii :=
  take len (drop start s).

(** [parseInt(s, 16)] on a string of hexadecimal digits: the digits read so
    far are multiplied by 16 and the next digit is added. *)
Definition parseInt16 (s : list ascii) : Z :=
  fold_left (fun acc a => 16 * acc + default 0 (hex_digit_value a)) s 0.

(** Storing into a [Uint8Array] element. *)
Definition to_uint8 (z : Z) : Z := z mod 256.

(** The [Uint8Array] after the loop: [cleanHex.length / 2] elements, element
    [i / 2] being [parseInt(cleanHex.substr(i, 2), 16)]. *)
Definition control_bytes (clean : list ascii) : list Z :=
  List.map (fun k => to_uint8 (parseInt16 (substr clean (2 * k) 2)))
           (seq 0 (length clean / 2)).

(** *** Methods and listeners *)

Section Device.

Context (K : constants).

(** [if (this.onX) this.onX(payload)] *)
Definition deliver (slot : callbacks -> bool) (e : effect) : M unit :=
  let! d := get_this in
  when (slot (on d)) (emit e).

(** [Array.from(bytes)] for a [Uint8Array] over the given bytes. *)
Definition bytes_of (bytes : list Byte.byte) : list Z := List.map u8 bytes.

(** The body of each registered function, applied to an event whose
    [target.value] is [value], at clock reading [now].  The parsers read the
    view; the control and monitor listeners copy [dataView.buffer], the
    whole buffer. *)
Definition handler_body (h : handler) (value : CharacteristicValue) (now : Z)
    : M unit :=
  match h with
  | OnGeneralStatus =>
      try_catch
        (let! data := lift (parseGeneralStatus (view value) false) in
         deliver onWorkoutData
           (CallOnWorkoutData None (WorkoutGeneralStatus data)))
        (fun error => console_error "Error parsing general status:" error)
  | OnAdditionalStatus =>
      try_catch
        (let! data := lift (parseAdditionalStatus (view value) false) in
         deliver onWorkoutData
           (CallOnWorkoutData None (WorkoutAdditionalStatus data)))
        (fun error => console_error "Error parsing additional status:" error)
  | OnStrokeData =>
      try_catch
        (let! data := lift (parseStrokeData (view value) false) in
         deliver onStrokeData (CallOnStrokeData None data))
        (fun error => console_error "Error parsing stroke data:" error)
  | OnSplitData =>
      try_catch
        (let! data := lift (parseSplitIntervalData (view value) false) in
         deliver onSplitData (CallOnSplitData None data))
        (fun error => console_error "Error parsing split data:" error)
  | OnControlRx =>
      try_catch
        (deliver onControlRxData
           (CallOnControlRxData now (bytes_of (buffer value))))
        (fun error => console_error "Error handling RX control data:" error)
  | OnCharacteristic u =>
      try_catch
        (deliver onCharacteristicData
           (CallOnCharacteristicData u now (bytes_of (buffer value))))
        (fun error => console_error "Error handling characteristic data:" error)
  | HandleGeneralStatusUpdate =>
      try_catch
        (let! data := lift (parseGeneralStatus (view value) false) in
         deliver onWorkoutData
           (CallOnWorkoutData (Some now) (WorkoutGeneralStatus data)))
        (fun error => console_error "Error parsing general status:" error)
  | HandleAdditionalStatusUpdate =>
      try_catch
        (let! data := lift (parseAdditionalStatus (view value) false) in
         deliver onWorkoutData
           (CallOnWorkoutData (Some now) (WorkoutAdditionalStatus data)))
        (fun error => console_error "Error parsing additional status:" error)
  | HandleStrokeDataUpdate =>
      try_catch
        (let! data := lift (parseStrokeData (view value) false) in
         deliver onStrokeData (CallOnStrokeData (Some now) data))
        (fun error => console_error "Error parsing stroke data:" error)
  | HandleSplitDataUpdate =>
      try_catch
        (let! data := lift (parseSplitIntervalData (view value) false) in
         deliver onSplitData (CallOnSplitData (Some now) data))
        (fun error => console_error "Error parsing split data:" error)
  | HandleMultiplexedDataUpdate =>
      try_catch
        (let! parsedData := lift (parseMultiplexedData (view value)) in
         match mx_data parsedData with
         | DataGeneralStatus data =>
             deliver onWorkoutData
               (CallOnWorkoutData (Some now) (WorkoutGeneralStatus data))
         | DataStrokeData data =>
             deliver onStrokeData (CallOnStrokeData (Some now) data)
         | _ => mret tt
         end)
        (fun error => console_error "Error parsing multiplexed data:" error)
  end.

(** The platform firing [characteristicvaluechanged] at a characteristic:
    its listeners run in registration order; an exception leaving a listener
    is reported and the next listener still runs. *)
Definition run_listener (l : listener) (value : CharacteristicValue) (now : Z)
    : M unit :=
  try_catch (handler_body (fn_code l) value now)
            (fun e => emit (Uncaught e)).

Fixpoint dispatch (ls : list listener) (value : CharacteristicValue) (now : Z)
    : M unit :=
  match ls with
  | [] => mret tt
  | l :: ls' => run_listener l value now ;; dispatch ls' value now
  end.

Definition characteristicvaluechanged (c : characteristic)
    (value : CharacteristicValue) (now : Z) : M unit :=
  fun w => dispatch (listeners_of c (plat w)) value now w.

(** [constructor]: the single [gattserverdisconnected] listener it binds is
    [handleDisconnected] below. *)
Definition constructor : world :=
  {| this := {| server := false; services := no_services;
                characteristics := []; isConnected := false;
                on := no_callbacks;
                notifyCapableCharacteristics := [];
                activeCharacteristicSubscription := None |};
     plat := {| listeners := ∅; next_function := 0 |};
     trace := [] |}.

(** The consumer assigning the [onX] properties. *)
Definition assign_callbacks (cb : callbacks) : M unit :=
  modify_this (set_on cb).

Definition getServices (o : oracle) : M unit :=
  try_catch
    (let! d := get_this in
     (if server d then mret tt else mthrow TypeError) ;;
     request o (GetPrimaryService (PM5_SERVICES_INFORMATION K)) ;;
     modify_this (fun d =>
       set_services (set_information (Some (PM5_SERVICES_INFORMATION K))
                                     (services d)) d) ;;
     request o (GetPrimaryService (PM5_SERVICES_CONTROL K)) ;;
     modify_this (fun d =>
       set_services (set_control (Some (PM5_SERVICES_CONTROL K))
                                 (services d)) d) ;;
     request o (GetPrimaryService (PM5_SERVICES_ROWING K)) ;;
     modify_this (fun d =>
       set_services (set_rowing (Some (PM5_SERVICES_ROWING K))
                                (services d)) d))
    (fun error => console_error "Error getting services:" error ;;
                  mthrow error).

Definition readDeviceInformation (o : oracle) : M unit := mret tt.

Definition connect (o : oracle) : M unit :=
  try_catch
    (request o GattConnect ;;
     modify_this (set_server true) ;;
     getServices o ;;
     readDeviceInformation o ;;
     modify_this (set_isConnected true))
    (fun error => console_error "Error connecting to PM5:" error ;;
                  mthrow error).

Definition handleDisconnected : M unit :=
  modify_this (set_isConnected false) ;;
  modify_this (set_server false) ;;
  modify_this (set_services no_services) ;;
  modify_this (set_characteristics []) ;;
  let! d := get_this in
  when (onDisconnected (on d)) (emit CallOnDisconnected).

(** [await this.services.<svc>.getCharacteristic(u)] *)
Definition getCharacteristic (o : oracle) (svc : services_t -> option uuid)
    (u : uuid) : M characteristic :=
  let! d := get_this in
  let! service := defined (svc (services d)) in
  request o (GetCharacteristic service u) ;;
  mret (service, u).

(** One block of [startRowingDataNotifications]: get the characteristic,
    start its notifications, register a new arrow function. *)
Definition start_stream (o : oracle) (u : uuid) (code : handler) : M unit :=
  let! char := getCharacteristic o rowing u in
  request o (StartNotifications char) ;;
  let! f := new_function code in
  addEventListener char f.

Definition startRowingDataNotifications (o : oracle) : M unit :=
  try_catch
    (start_stream o (GENERAL_STATUS K) OnGeneralStatus ;;
     start_stream o (ADDITIONAL_STATUS K) OnAdditionalStatus ;;
     start_stream o (STROKE_DATA K) OnStrokeData ;;
     start_stream o (SPLIT_INTERVAL_DATA K) OnSplitData)
    (fun error => console_error "Error starting notifications:" error ;;
                  mthrow error).

(** The same method in the CSAFE variant of the class: bound methods are
    registered, and the multiplexed stream is started if it is available. *)
Definition startRowingDataNotifications_csafe (o : oracle) : M unit :=
  try_catch
    (start_stream o (GENERAL_STATUS K) HandleGeneralStatusUpdate ;;
     start_stream o (ADDITIONAL_STATUS K) HandleAdditionalStatusUpdate ;;
     start_stream o (STROKE_DATA K) HandleStrokeDataUpdate ;;
     start_stream o (SPLIT_INTERVAL_DATA K) HandleSplitDataUpdate ;;
     try_catch
       (start_stream o (MULTIPLEXED_INFORMATION K) HandleMultiplexedDataUpdate)
       (fun _ => mret tt))
    (fun error =>
       console_error "Error starting rowing data notifications:" error ;;
       mthrow error).

Fixpoint stop_streams (o : oracle) (us : list uuid) : M unit :=
  match us with
  | [] => mret tt
  | charUuid :: rest =>
      try_catch
        (let! char := getCharacteristic o rowing charUuid in
         request o (StopNotifications char))
        (fun _ => mret tt) ;;
      stop_streams o rest
  end.

Definition stopRowingDataNotifications (o : oracle) : M unit :=
  try_catch
    (stop_streams o [GENERAL_STATUS K; ADDITIONAL_STATUS K; STROKE_DATA K;
                     SPLIT_INTERVAL_DATA K])
    (fun error => console_error "Error stopping notifications:" error ;;
                  mthrow error).

Definition sendControlBytes (o : oracle) (hexString : string) : M bool :=
  try_catch
    (let clean := cleanHex hexString in
     (if (length clean mod 2 =? 0)%nat then mret tt
      else mthrow (Error HexOddLength)) ;;
     let bytes := control_bytes clean in
     let! transmitChar := getCharacteristic o control (TRANSMIT K) in
     request o (WriteValue transmitChar bytes) ;;
     mret true)
    (fun error => console_error "Error sending control bytes:" error ;;
                  mthrow error).

Definition startControlRxNotifications (o : oracle) : M bool :=
  try_catch
    (let! receiveChar := getCharacteristic o control (RECEIVE K) in
     request o (StartNotifications receiveChar) ;;
     let! f := new_function OnControlRx in
     addEventListener receiveChar f ;;
     mret true)
    (fun error =>
       console_error "Error starting RX control notifications:" error ;;
       mthrow error).

Definition stopControlRxNotifications (o : oracle) : M bool :=
  try_catch
    (let! receiveChar := getCharacteristic o control (RECEIVE K) in
     request o (StopNotifications receiveChar) ;;
     mret true)
    (fun error =>
       console_error "Error stopping RX control notifications:" error ;;
       mthrow error).

(** [gatt]: what the platform answers to the discovery, per service the
    characteristics with their [properties.notify]. *)
Fixpoint collect_notify (o : oracle) (gatt : list (uuid * list (uuid * bool)))
    : M (list charInfo) :=
  match gatt with
  | [] => mret []
  | (service, chars) :: rest =>
      let! here :=
        try_catch
          (request o (GetCharacteristics service) ;;
           mret (List.map (fun c => {| ci_uuid := fst c;
                                       ci_serviceUuid := service;
                                       ci_characteristic := (service, fst c) |})
                          (List.filter snd chars)))
          (fun _ => mret []) in
      let! more := collect_notify o rest in
      mret (here ++ more)
  end.

Definition discoverNotifyCapableCharacteristics (o : oracle)
    (gatt : list (uuid * list (uuid * bool))) : M (list charInfo) :=
  try_catch
    (let! d := get_this in
     (if server d then mret tt else mthrow TypeError) ;;
     request o GetPrimaryServices ;;
     let! notifyChars := collect_notify o gatt in
     modify_this (set_notifyCapableCharacteristics notifyChars) ;;
     mret notifyChars)
    (fun error =>
       console_error "Error discovering notify-capable characteristics:" error ;;
       mthrow error).

Definition unsubscribeFromCharacteristic (o : oracle) : M unit :=
  let! d := get_this in
  match activeCharacteristicSubscription d with
  | None => mret tt
  | Some sub =>
      try_catch
        (removeEventListener (sub_characteristic sub) (sub_handler sub) ;;
         request o (StopNotifications (sub_characteristic sub)) ;;
         modify_this (set_activeCharacteristicSubscription None))
        (fun error =>
           console_error "Error unsubscribing from characteristic:" error ;;
           mthrow error)
  end.

Definition subscribeToCharacteristic (o : oracle) (u : uuid) : M bool :=
  try_catch
    (let! d := get_this in
     when (bool_decide (is_Some (activeCharacteristicSubscription d)))
          (unsubscribeFromCharacteristic o) ;;
     let! d := get_this in
     match List.find (fun c => String.eqb (ci_uuid c) u)
                     (notifyCapableCharacteristics d) with
     | None => mthrow (Error (CharacteristicNotFound u))
     | Some info =>
         let char := ci_characteristic info in
         request o (StartNotifications char) ;;
         let! handler := new_function (OnCharacteristic u) in
         addEventListener char handler ;;
         modify_this (set_activeCharacteristicSubscription
                        (Some {| sub_uuid := u; sub_characteristic := char;
                                 sub_handler := handler |})) ;;
         mret true
     end)
    (fun error =>
       console_error "Error subscribing to characteristic:" error ;;
       mthrow error).

End Device.

(** ** The command codec *)

Module CommandCodec.

(** A command: its opcode and its parameter bytes. *)
Record Command := {
  opcode : Byte.byte;
  parameters : list Byte.byte
}.

Inductive codec_error :=
| FormatError (expected actual : nat)   (* frame shorter than required *)
| IntegrityError.                       (* integrity check does not match *)

Section Frame.

(** The integrity check over the command bytes. *)
Variable checksum : list Byte.byte -> Byte.byte.

(** Modelled from the spec: [csafe.js] (CSAFECommandBuilder.build and
    parseCSAFEResponse, which [sendCSAFECommand] calls) is missing from the
    sources.  The frame is described as "an opcode byte followed by parameter
    bytes", "length-prefixed" and "checksummed": the opcode, the number of
    parameter bytes, the parameter bytes, then the integrity byte.  A command
    is accepted when its parameter count fits the length byte. *)
Definition encode (c : Command) : option (list Byte.byte) :=
  match Byte.of_N (N.of_nat (length (parameters c))) with
  | Some count =>
      let body := opcode c :: count :: parameters c in
      Some (body ++ [checksum body])
  | None => None
  end.

(** Modelled from the spec: decoding "validates minimum length and surfaces a
    FormatError on truncation", then checks the integrity byte and returns the
    opcode and the parameters. *)
Definition decode (frame : list Byte.byte)
    : codec_error + Command :=
  match frame with
  | op :: count :: rest =>
      let n := N.to_nat (Byte.to_N count) in
      let params := take n rest in
      match drop n rest with
      | check :: _ =>
          if Byte.eqb check (checksum (op :: count :: params))
          then inr {| opcode := op; parameters := params |}
          else inl IntegrityError
      | [] => inl (FormatError (n + 3) (length frame))
      end
  | _ => inl (FormatError 3 (length frame))
  end.

End Frame.

End CommandCodec.

(** ** Vocabulary of the statements *)

(** The world after some more effects. *)
Definition logged (out : list effect) (w : world) : world :=
  {| this := this w; plat := plat w; trace := trace w ++ out |}.

(** What running [c] from [w] adds to the trace. *)
Definition effects_of {A} (c : M A) (w : world) : list effect :=
  drop (length (trace w)) (trace (snd (c w))).


(** What a listener does for one notification, given the device object. *)
Definition listener_effects (d : PM5Device) (l : listener)
    (value : CharacteristicValue) (now : Z) : list effect :=
  trace (snd (run_listener l value now
                {| this := d; plat := {| listeners := ∅; next_function := 0 |};
                   trace := [] |})).

Definition failure {A} (r : result A) : option exn :=
  match r with
  | inl e => Some e
  | inr _ => None
  end.

(** The decoder a listener applies to the notification, and its failure. *)
Definition decode_error (h : handler) (value : DataView) : option exn :=
  match h with
  | OnGeneralStatus | HandleGeneralStatusUpdate =>
      failure (parseGeneralStatus value false)
  | OnAdditionalStatus | HandleAdditionalStatusUpdate =>
      failure (parseAdditionalStatus value false)
  | OnStrokeData | HandleStrokeDataUpdate =>
      failure (parseStrokeData value false)
  | OnSplitData | HandleSplitDataUpdate =>
      failure (parseSplitIntervalData value false)
  | HandleMultiplexedDataUpdate => failure (parseMultiplexedData value)
  | OnControlRx | OnCharacteristic _ => None
  end.

(** The first argument of the [console.error] in the listener's catch. *)
Definition error_label (h : handler) : string :=
  match h with
  | OnGeneralStatus | HandleGeneralStatusUpdate =>
      "Error parsing general status:"
  | OnAdditionalStatus | HandleAdditionalStatusUpdate =>
      "Error parsing additional status:"
  | OnStrokeData | HandleStrokeDataUpdate => "Error parsing stroke data:"
  | OnSplitData | HandleSplitDataUpdate => "Error parsing split data:"
  | HandleMultiplexedDataUpdate => "Error parsing multiplexed data:"
  | OnControlRx => "Error handling RX control data:"
  | OnCharacteristic _ => "Error handling characteristic data:"
  end.

(** The device object after [handleDisconnected]. *)
Definition disconnected (d : PM5Device) : PM5Device :=
  {| server := false; services := no_services; characteristics := [];
     isConnected := false; on := on d;
     notifyCapableCharacteristics := notifyCapableCharacteristics d;
     activeCharacteristicSubscription := activeCharacteristicSubscription d |}.

Definition hex_value (a : ascii) : Z := default 0 (hex_digit_value a).

(** *** A sample session *)

Definition sample_constants : constants :=
  {| PM5_SERVICES_INFORMATION := "information";
     PM5_SERVICES_CONTROL := "control";
     PM5_SERVICES_ROWING := "rowing";
     GENERAL_STATUS := "general-status";
     ADDITIONAL_STATUS := "additional-status";
     STROKE_DATA := "stroke-data";
     SPLIT_INTERVAL_DATA := "split-interval-data";
     MULTIPLEXED_INFORMATION := "multiplexed-information";
     TRANSMIT := "transmit";
     RECEIVE := "receive" |}.

(** Every platform request resolves. *)
Definition resolves : oracle := fun _ => true.

Definition all_callbacks : callbacks :=
  {| onDisconnected := true; onWorkoutData := true; onStrokeData := true;
     onSplitData := true; onControlRxData := true;
     onCharacteristicData := true |}.

Definition run {A} (c : M A) (w : world) : world := snd (c w).

(** A consumer attaches its callbacks and connects. *)
Definition connected_session : world :=
  run (connect sample_constants resolves)
      (run (assign_callbacks all_callbacks) constructor).

(** The rowing service as the platform reports it to the discovery. *)
Definition sample_gatt : list (uuid * list (uuid * bool)) :=
  [("rowing", [("general-status", true); ("stroke-data", true)])].

(** The sample session with the rowing streams started and the
    characteristics discovered. *)
Definition streaming_session : world :=
  run (discoverNotifyCapableCharacteristics resolves sample_gatt)
      (run (startRowingDataNotifications sample_constants resolves)
         connected_session).

(** ** More of parsers.js *)

(** A hexadecimal digit of [Number.prototype.toString(16)]. *)
Definition hex_char (d : Z) : ascii :=
  ascii_of_nat (Z.to_nat (if d <? 10 then 48 + d else 87 + d)).

(** [byte.toString(16)] for an element of a [Uint8Array] (0 to 255): one or
    two lowercase digits, no leading zero. *)
Definition toString16 (n : Z) : list ascii :=
  if n <? 16 then [hex_char n] else [hex_char (n / 16); hex_char (n mod 16)].

(** [s.padStart(targetLength, pad)] with a one-character pad. *)
Definition padStart (s : list ascii) (targetLength : nat) (pad : ascii)
    : list ascii :=
  replicate (targetLength - length s) pad ++ s.

(** [parts.join(sep)] *)
Fixpoint join (sep : list ascii) (parts : list (list ascii)) : list ascii :=
  match parts with
  | [] => []
  | [p] => p
  | p :: rest => p ++ sep ++ join sep rest
  end.

Definition byte_hex (b : Byte.byte) : list ascii :=
  padStart (toString16 (u8 b)) 2 "0"%char.

Definition dataViewToHex (dataView : DataView) : string :=
  String.string_of_list_ascii (join [" "%char] (List.map byte_hex dataView)).

(** The tag of each record kind in the [switch] of [parseMultiplexedData],
    and the [type] string of its branch. *)
Definition tag_of (kind : record_kind) : Byte.byte :=
  match kind with
  | general_status => Byte.x31
  | additional_status => Byte.x32
  | stroke_data => Byte.x35
  | split_data => Byte.x37
  end.

Definition type_of (kind : record_kind) : string :=
  match kind with
  | general_status => "general_status"
  | additional_status => "additional_status"
  | stroke_data => "stroke_data"
  | split_data => "split_data"
  end.

Definition data_of (r : TelemetryRecord) : mux_data :=
  match r with
  | RGeneralStatus d => DataGeneralStatus d
  | RAdditionalStatus d => DataAdditionalStatus d
  | RStrokeData d => DataStrokeData d
  | RSplitData d => DataSplitData d
  end.

(** The record the worked example decodes to. *)
Definition sample_record : GeneralStatus :=
  {| gs_elapsed_time := 1%float; gs_distance := 100%float;
     gs_workout_type := 1; gs_interval_type := 0; gs_workout_state := 1;
     gs_rowing_state := 1; gs_stroke_state := 2;
     gs_total_work_distance := 0; gs_workout_duration := 0;
     gs_workout_duration_type := 0; gs_drag_factor := 115 |}.

(** ** Vocabulary of the further statements *)

(** The listener list of a characteristic after [addEventListener]. *)
Definition register (l : listener) (ls : list listener) : list listener :=
  if bool_decide (l ∈ ls) then ls else ls ++ [l].

(** The session after one block of [startRowingDataNotifications] went
    through for characteristic [c]. *)
Definition stream_started (c : characteristic) (code : handler) (w : world)
    : world :=
  {| this := this w;
     plat := {| listeners :=
                  <[c := register {| fn_id := next_function (plat w);
                                     fn_code := code |}
                                  (listeners_of c (plat w))]>
                    (listeners (plat w));
                next_function := S (next_function (plat w)) |};
     trace := trace w ++ [Issued (GetCharacteristic c.1 c.2);
                          Issued (StartNotifications c)] |}.

(** [w'] has the device object of [w] and at least its listeners, in the
    same order. *)
Definition keeps_listeners (w w' : world) : Prop :=
  this w' = this w /\
  forall c, listeners_of c (plat w) `prefix_of` listeners_of c (plat w').

(** Every registered function is older than the next identity. *)
Definition fresh_ids (w : world) : Prop :=
  forall c l, l ∈ listeners_of c (plat w) ->
              (fn_id l < next_function (plat w))%nat.

(** The four streams of [startRowingDataNotifications], in order. *)
Definition rowing_streams (K : constants) : list uuid :=
  [GENERAL_STATUS K; ADDITIONAL_STATUS K; STROKE_DATA K;
   SPLIT_INTERVAL_DATA K].

(** The CSAFE variant of [handleDisconnected]: only [isConnected] is
    reset. *)
Definition handleDisconnected_csafe : M unit :=
  modify_this (set_isConnected false) ;;
  let! d := get_this in
  when (onDisconnected (on d)) (emit CallOnDisconnected).

#[global] Instance platform_call_eq_dec : EqDecision platform_call.
Proof. solve_decision. Defined.

(** The platform rejects the request [c] and resolves every other one. *)
Definition rejects (c : platform_call) : oracle :=
  fun c' => negb (bool_decide (c' = c)).

(** The requests [stopRowingDataNotifications] issues for one stream: none
    without a rowing service, the stop only if the characteristic was
    obtained. *)
Definition stop_requests (o : oracle) (service : option uuid) (u : uuid)
    : list effect :=
  match service with
  | None => []
  | Some svc =>
      if o (GetCharacteristic svc u)
      then [Issued (GetCharacteristic svc u);
            Issued (StopNotifications (svc, u))]
      else [Issued (GetCharacteristic svc u)]
  end.

(* ===================================================================== *)
(** * Properties *)
(* ===================================================================== *)

(** ** Proof automation *)

(** Peel bytes off the front of a view until the length hypothesis is used
    up; the remaining goals have an explicit prefix. *)
Ltac explode dv :=
  repeat (destruct dv as [| ? dv]; [simpl in *; lia |]).

Ltac read_fields :=
  cbv [parseGeneralStatus parseAdditionalStatus parseStrokeData
       parseSplitIntervalData readInt24LE readInt16LE getUint16 getUint8
       mux_offset byteLength bind ret throw];
  cbn [lookup list_lookup length Nat.add Nat.ltb Nat.leb].

(** Unfold a listener down to the decoder it calls. *)
Ltac run_handler :=
  cbv [run_listener handler_body try_catch mbind lift deliver get_this when
       emit mret console_error logged fn_code this plat trace fst snd].

(** Case analysis on the outcome of the decoder a listener calls. *)
Ltac case_decode :=
  repeat match goal with
         | |- context [parseGeneralStatus ?v ?m] =>
             destruct (parseGeneralStatus v m)
         | |- context [parseAdditionalStatus ?v ?m] =>
             destruct (parseAdditionalStatus v m)
         | |- context [parseStrokeData ?v ?m] =>
             destruct (parseStrokeData v m)
         | |- context [parseSplitIntervalData ?v ?m] =>
             destruct (parseSplitIntervalData v m)
         | |- context [parseMultiplexedData ?v] =>
             destruct (parseMultiplexedData v) as [? | [? ? []]]
         end.

(** ** Numerics *)

Lemma ToInt32_small z : 0 <= z < 2 ^ 31 -> JS.ToInt32 z = z.
Proof.
  intros Hz. unfold JS.ToInt32.
  rewrite Z.mod_small by lia.
  destruct (Z.ltb_spec z (2 ^ 31)); lia.
Qed.

Lemma shl_small a n :
  0 <= n < 32 -> 0 <= a -> a * 2 ^ n < 2 ^ 31 -> JS.shl a n = a * 2 ^ n.
Proof.
  intros Hn Ha Hb. unfold JS.shl.
  assert (H1 : 1 <= 2 ^ n) by (apply (Z.pow_le_mono_r 2 0 n); lia).
  assert (H2 : a * 1 <= a * 2 ^ n) by (apply Z.mul_le_mono_nonneg_l; lia).
  rewrite Z.mod_small by lia.
  rewrite (ToInt32_small a) by lia.
  rewrite Z.shiftl_mul_pow2 by lia.
  apply ToInt32_small. lia.
Qed.

Lemma u8_range b : 0 <= u8 b < 256.
Proof.
  unfold u8. pose proof (Byte.to_N_bounded b). lia.
Qed.

Lemma shl_u8_8 b : JS.shl (u8 b) 8 = 256 * u8 b.
Proof.
  pose proof (u8_range b).
  rewrite shl_small; change (2 ^ 8) with 256; change (2 ^ 31) with 2147483648; lia.
Qed.

Lemma shl_u8_16 b : JS.shl (u8 b) 16 = 65536 * u8 b.
Proof.
  pose proof (u8_range b).
  rewrite shl_small; change (2 ^ 16) with 65536; change (2 ^ 31) with 2147483648; lia.
Qed.



(** ** Field readers *)

Lemma getUint8_at (pre : DataView) b (post : DataView) :
  getUint8 (pre ++ b :: post) (length pre) = inr (u8 b).
Proof.
  unfold getUint8. rewrite list_lookup_middle by reflexivity. reflexivity.
Qed.










(** ** Decoding the four record shapes *)

(** C1.  A non-multiplexed general status is read at the offsets of the
    layout table: the 24-bit little-endian fields at 0 (times 0.01), 3 (times
    0.1), 11 and 14, the bytes at 6, 7, 8, 9, 10, 17 and 18.  For the 19-byte
    notification 64 00 00 E8 03 00 01 00 01 01 02 00 00 00 00 00 00 00 73 this
    gives elapsed_time 1.00 s, distance 100.0 m, workout_type 1,
    interval_type 0, workout_state 1, rowing_state 1, stroke_state 2 and
    drag_factor 115 (the remaining fields are 0). *)
Theorem parseGeneralStatus_sample :
  (forall b0 b1 b2 b3 b4 b5 b6 b7 b8 b9 b10 b11 b12 b13 b14 b15 b16 b17 b18
          (rest : DataView),
      parseGeneralStatus
        (b0 :: b1 :: b2 :: b3 :: b4 :: b5 :: b6 :: b7 :: b8 :: b9 :: b10 ::
         b11 :: b12 :: b13 :: b14 :: b15 :: b16 :: b17 :: b18 :: rest) false =
      inr {| gs_elapsed_time :=
               JS.times (u8 b0 + 256 * u8 b1 + 65536 * u8 b2) 0.01;
             gs_distance :=
               JS.times (u8 b3 + 256 * u8 b4 + 65536 * u8 b5) 0.1;
             gs_workout_type := u8 b6;
             gs_interval_type := u8 b7;
             gs_workout_state := u8 b8;
             gs_rowing_state := u8 b9;
             gs_stroke_state := u8 b10;
             gs_total_work_distance :=
               u8 b11 + 256 * u8 b12 + 65536 * u8 b13;
             gs_workout_duration :=
               u8 b14 + 256 * u8 b15 + 65536 * u8 b16;
             gs_workout_duration_type := u8 b17;
             gs_drag_factor := u8 b18 |}) /\
  byteLength sample_general_status = 19%nat /\
  parseGeneralStatus sample_general_status false =
    inr {| gs_elapsed_time := 1%float;
           gs_distance := 100%float;
           gs_workout_type := 1;
           gs_interval_type := 0;
           gs_workout_state := 1;
           gs_rowing_state := 1;
           gs_stroke_state := 2;
           gs_total_work_distance := 0;
           gs_workout_duration := 0;
           gs_workout_duration_type := 0;
           gs_drag_factor := 115 |}.
Proof.
  split; [| split; [reflexivity | vm_compute; reflexivity]].
  intros. read_fields. rewrite !shl_u8_8, !shl_u8_16. reflexivity.
Qed.

Lemma parse_record_short kind (dataView : DataView) isMultiplexed :
  (byteLength dataView < min_length kind + mux_offset isMultiplexed)%nat ->
  parse_record kind dataView isMultiplexed =
    inl (Error (InvalidDataLength kind (byteLength dataView)
                  (min_length kind + mux_offset isMultiplexed))).
Proof.
  intros H. apply Nat.ltb_lt in H.
  destruct kind; cbn [min_length] in H;
    cbv [parse_record parseGeneralStatus parseAdditionalStatus parseStrokeData
         parseSplitIntervalData];
    rewrite H; reflexivity.
Qed.

Lemma parse_record_long kind (dataView : DataView) isMultiplexed :
  (min_length kind + mux_offset isMultiplexed <= byteLength dataView)%nat ->
  (exists r, parse_record kind dataView isMultiplexed = inr r) /\
  parse_record kind dataView isMultiplexed =
    parse_record kind
      (take (min_length kind + mux_offset isMultiplexed) dataView)
      isMultiplexed.
Proof.
  unfold byteLength.
  destruct kind, isMultiplexed; cbn [min_length mux_offset Nat.add]; intros H;
    explode dataView; (split; [eexists |]); unfold parse_record;
    cbn [take]; read_fields; reflexivity.
Qed.

Lemma parse_record_error kind (dataView : DataView) isMultiplexed e :
  parse_record kind dataView isMultiplexed = inl e ->
  e = Error (InvalidDataLength kind (byteLength dataView)
               (min_length kind + mux_offset isMultiplexed)).
Proof.
  intros He.
  destruct (Nat.lt_ge_cases (byteLength dataView)
              (min_length kind + mux_offset isMultiplexed)) as [Hlt | Hge].
  - rewrite (parse_record_short _ _ _ Hlt) in He. congruence.
  - destruct (parse_record_long _ _ _ Hge) as [[r Hr] _]. congruence.
Qed.

(** C2.  For each record shape and either value of [isMultiplexed], decoding
    fails exactly when the view is shorter than the minimum length (19, 16,
    20, 18, plus one when multiplexed); the failure is the length error
    carrying the actual and the expected length; a view of at least the
    minimum length decodes, and decodes to what its first minimum-length
    bytes decode to (trailing bytes are ignored). *)
Theorem decode_fails_iff_too_short kind (dataView : DataView) isMultiplexed :
  let expected := (min_length kind + mux_offset isMultiplexed)%nat in
  ((exists e, parse_record kind dataView isMultiplexed = inl e) <->
   (byteLength dataView < expected)%nat) /\
  (forall e, parse_record kind dataView isMultiplexed = inl e ->
     e = Error (InvalidDataLength kind (byteLength dataView) expected)) /\
  ((expected <= byteLength dataView)%nat ->
     (exists r, parse_record kind dataView isMultiplexed = inr r) /\
     parse_record kind dataView isMultiplexed =
       parse_record kind (take expected dataView) isMultiplexed) /\
  min_length general_status = 19%nat /\
  min_length additional_status = 16%nat /\
  min_length stroke_data = 20%nat /\
  min_length split_data = 18%nat /\
  mux_offset true = 1%nat /\ mux_offset false = 0%nat.
Proof.
  intros expected.
  destruct (Nat.lt_ge_cases (byteLength dataView) expected) as [Hlt | Hge].
  - pose proof (parse_record_short kind dataView isMultiplexed Hlt) as E.
    fold expected in E.
    split; [| split; [| split]].
    + split; eauto.
    + intros e He. congruence.
    + lia.
    + repeat split.
  - destruct (parse_record_long kind dataView isMultiplexed Hge) as [[r Hr] Ht].
    split; [| split; [| split]].
    + split; [intros [e He]; congruence | lia].
    + intros e He. congruence.
    + eauto.
    + repeat split.
Qed.

(** The theorem at a 19-byte and at an 18-byte view. *)
Lemma decode_fails_iff_too_short_witness :
  (exists r, parse_record general_status sample_general_status false = inr r) /\
  parse_record general_status (take 18 sample_general_status) false =
    inl (Error (InvalidDataLength general_status 18 19)).
Proof.
  split.
  - apply (decode_fails_iff_too_short general_status sample_general_status false).
    vm_compute. lia.
  - destruct (decode_fails_iff_too_short general_status
                (take 18 sample_general_status) false) as (Hiff & Herr & _).
    destruct (proj2 Hiff) as [e He]; [vm_compute; lia |].
    rewrite He. f_equal. apply (Herr e He).
Defined.

(** A record inside a multiplexed frame is the same record one byte later. *)
Lemma parse_record_shift kind tag (payload : DataView) :
  (min_length kind <= byteLength payload)%nat ->
  parse_record kind (tag :: payload) true = parse_record kind payload false.
Proof.
  unfold byteLength.
  destruct kind; cbn [min_length]; intros H;
    explode payload; unfold parse_record; read_fields; reflexivity.
Qed.

Lemma parse_record_general (dataView : DataView) m d :
  parse_record general_status dataView m = inr (RGeneralStatus d) <->
  parseGeneralStatus dataView m = inr d.
Proof.
  unfold parse_record, bind, ret.
  destruct (parseGeneralStatus dataView m); split; congruence.
Qed.

Lemma parseMultiplexedData_known kind (rest : DataView) :
  parseMultiplexedData (tag_of kind :: rest) =
    let* r := parse_record kind (tag_of kind :: rest) true in
    ret {| mx_type := type_of kind; mx_uuid := None; mx_data := data_of r |}.
Proof.
  destruct kind; unfold parseMultiplexedData, parse_record, getUint8;
    cbn [lookup list_lookup bind ret tag_of type_of];
    match goal with
    | |- context [bind ?p _] => destruct p; reflexivity
    end.
Qed.

Lemma parseMultiplexedData_other tag (rest : DataView) :
  known_tag (u8 tag) = false ->
  exists r, parseMultiplexedData (tag :: rest) = inr r.
Proof.
  unfold known_tag. intros H.
  repeat (apply orb_false_elim in H; destruct H as [H ?]).
  unfold parseMultiplexedData, getUint8.
  cbn [lookup list_lookup bind ret].
  repeat match goal with E : (_ =? _) = false |- _ => rewrite E; clear E end.
  eauto.
Qed.

Lemma tag_cases tag :
  (exists kind, tag = tag_of kind) \/ known_tag (u8 tag) = false.
Proof.
  destruct tag;
    first [ right; reflexivity
          | left; exists general_status; reflexivity
          | left; exists additional_status; reflexivity
          | left; exists stroke_data; reflexivity
          | left; exists split_data; reflexivity ].
Qed.

Lemma parseMultiplexedData_error (dataView : DataView) e :
  parseMultiplexedData dataView = inl e ->
  (dataView = [] /\ e = RangeError) \/
  (exists kind,
      e = Error (InvalidDataLength kind (byteLength dataView)
                   (min_length kind + 1))).
Proof.
  destruct dataView as [| tag rest].
  - intros [= <-]. left. auto.
  - destruct (tag_cases tag) as [[kind ->] | Hother].
    + rewrite parseMultiplexedData_known. intros H.
      destruct (parse_record kind (tag_of kind :: rest) true) as [e' | r]
        eqn:Hp; [| discriminate].
      cbn [bind] in H. injection H as <-.
      right. exists kind. exact (parse_record_error _ _ _ _ Hp).
    + destruct (parseMultiplexedData_other tag rest Hother) as [r Hr].
      rewrite Hr. discriminate.
Qed.

(** A frame made of the tag of a kind and a payload that the decoder of the
    kind accepts on its own. *)
Lemma parseMultiplexedData_frame kind (payload : DataView) :
  (min_length kind <= byteLength payload)%nat ->
  exists r,
    parse_record kind payload false = inr r /\
    parseMultiplexedData (tag_of kind :: payload) =
      inr {| mx_type := type_of kind; mx_uuid := None; mx_data := data_of r |}.
Proof.
  intros Hlen.
  destruct (parse_record_long kind payload false) as [[r Hr] _];
    [cbn [mux_offset]; lia |].
  exists r. split; [exact Hr |].
  rewrite parseMultiplexedData_known, (parse_record_shift _ _ _ Hlen), Hr.
  reflexivity.
Qed.

(** From the decoder selected by the kind back to the parser of the
    source. *)
Ltac named_parser H :=
  unfold parse_record, bind, ret in H;
  match type of H with
  | context [match ?p with inl _ => _ | inr _ => _ end] =>
      destruct p as [? | d] eqn:?; [discriminate |];
      injection H as <-; exists d; split; [reflexivity |]
  end.

(** C3.  A general-status payload of 19 bytes (or more) behind the tag 0x31
    decodes, through [parseMultiplexedData], to the record obtained by
    decoding the payload on its own as a non-multiplexed view; and likewise
    tags 0x32, 0x35 and 0x37 give the additional-status, stroke and split
    records that the payload decodes to on its own: each decoder is applied
    at payload offset 1, so the tag byte is not part of any field. *)
Theorem parseMultiplexedData_routes :
  (forall payload : DataView,
      (19 <= byteLength payload)%nat ->
      exists d,
        parseGeneralStatus payload false = inr d /\
        parseMultiplexedData (Byte.x31 :: payload) =
          inr {| mx_type := "general_status"; mx_uuid := None;
                 mx_data := DataGeneralStatus d |}) /\
  (forall payload : DataView,
      (16 <= byteLength payload)%nat ->
      exists d,
        parseAdditionalStatus payload false = inr d /\
        parseMultiplexedData (Byte.x32 :: payload) =
          inr {| mx_type := "additional_status"; mx_uuid := None;
                 mx_data := DataAdditionalStatus d |}) /\
  (forall payload : DataView,
      (20 <= byteLength payload)%nat ->
      exists d,
        parseStrokeData payload false = inr d /\
        parseMultiplexedData (Byte.x35 :: payload) =
          inr {| mx_type := "stroke_data"; mx_uuid := None;
                 mx_data := DataStrokeData d |}) /\
  (forall payload : DataView,
      (18 <= byteLength payload)%nat ->
      exists d,
        parseSplitIntervalData payload false = inr d /\
        parseMultiplexedData (Byte.x37 :: payload) =
          inr {| mx_type := "split_data"; mx_uuid := None;
                 mx_data := DataSplitData d |}).
Proof.
  repeat match goal with |- _ /\ _ => split end; intros payload Hlen.
  - destruct (parseMultiplexedData_frame general_status payload Hlen)
      as (r & Hr & Hm).
    named_parser Hr. exact Hm.
  - destruct (parseMultiplexedData_frame additional_status payload Hlen)
      as (r & Hr & Hm).
    named_parser Hr. exact Hm.
  - destruct (parseMultiplexedData_frame stroke_data payload Hlen)
      as (r & Hr & Hm).
    named_parser Hr. exact Hm.
  - destruct (parseMultiplexedData_frame split_data payload Hlen)
      as (r & Hr & Hm).
    named_parser Hr. exact Hm.
Qed.

(** The theorem at the worked example behind tag 0x31. *)
Lemma parseMultiplexedData_routes_witness :
  exists d,
    parseGeneralStatus sample_general_status false = inr d /\
    parseMultiplexedData (Byte.x31 :: sample_general_status) =
      inr {| mx_type := "general_status"; mx_uuid := None;
             mx_data := DataGeneralStatus d |}.
Proof.
  apply (proj1 parseMultiplexedData_routes sample_general_status).
  apply le_n.
Defined.

(** C4 as amended.  A frame whose tag is none of 0x31, 0x32, 0x35, 0x37
    decodes without error to the object of type "unknown" carrying the tag;
    its [data] is [null]. *)
Theorem parseMultiplexedData_unknown_tag tag (rest : DataView) :
  known_tag (u8 tag) = false ->
  parseMultiplexedData (tag :: rest) =
    inr {| mx_type := "unknown"; mx_uuid := Some (u8 tag);
           mx_data := DataNull |}.
Proof.
  unfold known_tag. intros H.
  repeat (apply orb_false_elim in H; destruct H as [H ?]).
  unfold parseMultiplexedData, getUint8.
  cbn [lookup list_lookup bind ret].
  repeat match goal with E : (_ =? _) = false |- _ => rewrite E; clear E end.
  reflexivity.
Qed.

(** The theorem at the frame 40 01. *)
Lemma parseMultiplexedData_unknown_tag_witness :
  parseMultiplexedData [Byte.x40; Byte.x01] =
    inr {| mx_type := "unknown"; mx_uuid := Some 64; mx_data := DataNull |}.
Proof.
  apply (parseMultiplexedData_unknown_tag Byte.x40 [Byte.x01]).
  reflexivity.
Defined.

(** C4 as stated fails: the outcome for an unknown tag does not carry the
    remaining bytes.  The frames 40 01 and 40 02 decode to the same object,
    whose [data] is [null], so no reading of the outcome gives back the
    payload. *)
Lemma parseMultiplexedData_unknown_drops_payload :
  parseMultiplexedData [Byte.x40; Byte.x01] =
    inr {| mx_type := "unknown"; mx_uuid := Some 64; mx_data := DataNull |} /\
  parseMultiplexedData [Byte.x40; Byte.x01] =
    parseMultiplexedData [Byte.x40; Byte.x02] /\
  ~ (exists payload_of : Multiplexed -> list Byte.byte,
       forall tag (rest : DataView),
         known_tag (u8 tag) = false ->
         exists r, parseMultiplexedData (tag :: rest) = inr r /\
                   payload_of r = rest).
Proof.
  split; [reflexivity |]. split; [reflexivity |].
  intros [payload_of H].
  destruct (H Byte.x40 [Byte.x01] eq_refl) as (r1 & E1 & P1).
  destruct (H Byte.x40 [Byte.x02] eq_refl) as (r2 & E2 & P2).
  vm_compute in E1, E2.
  assert (r1 = r2) by congruence. subst r2.
  rewrite P1 in P2. discriminate.
Qed.

(** ** The command codec *)

(** C8.  Round trip of the command codec: the frame built for an accepted
    command decodes to the same opcode and the same parameter bytes, for any
    integrity function. *)
Theorem command_roundtrip checksum (c : CommandCodec.Command) frame :
  CommandCodec.encode checksum c = Some frame ->
  CommandCodec.decode checksum frame = inr c.
Proof.
  destruct c as [op params]. unfold CommandCodec.encode. cbn [CommandCodec.opcode CommandCodec.parameters].
  destruct (Byte.of_N (N.of_nat (length params))) as [count |] eqn:Ecount;
    [| discriminate].
  intros [= <-].
  apply Byte.to_of_N in Ecount.
  cbn [CommandCodec.decode app].
  rewrite Ecount, Nat2N.id.
  rewrite take_app_length, drop_app_length.
  rewrite (Byte.byte_dec_lb eq_refl). reflexivity.
Qed.

(** The theorem at the command 0x80 with parameters 01 02, the integrity
    byte being the opcode. *)
Lemma command_roundtrip_witness :
  CommandCodec.decode (fun body => hd Byte.x00 body)
    [Byte.x80; Byte.x02; Byte.x01; Byte.x02; Byte.x80] =
  inr {| CommandCodec.opcode := Byte.x80;
         CommandCodec.parameters := [Byte.x01; Byte.x02] |}.
Proof.
  apply (command_roundtrip (fun body => hd Byte.x00 body)
           {| CommandCodec.opcode := Byte.x80;
              CommandCodec.parameters := [Byte.x01; Byte.x02] |}).
  reflexivity.
Defined.

(** ** The session *)

Lemma logged_nil w : logged [] w = w.
Proof. destruct w. unfold logged. cbn. rewrite app_nil_r. reflexivity. Qed.

Lemma logged_logged a b w : logged b (logged a w) = logged (a ++ b) w.
Proof. unfold logged. cbn. rewrite app_assoc. reflexivity. Qed.

Lemma handleDisconnected_eq w :
  handleDisconnected w =
    (inr tt,
     {| this := disconnected (this w); plat := plat w;
        trace := trace w ++
                 (if onDisconnected (on (this w)) then [CallOnDisconnected]
                  else []) |}).
Proof.
  destruct w as [d p t].
  cbv [handleDisconnected mbind modify_this get_this when emit mret
       set_isConnected set_server set_services set_characteristics
       disconnected this plat trace on isConnected server services
       characteristics notifyCapableCharacteristics
       activeCharacteristicSubscription].
  destruct d as [? ? ? ? cb ? ?]. destruct (onDisconnected cb).
  - reflexivity.
  - rewrite app_nil_r. reflexivity.
Qed.

Lemma mbind_get_this {A} (k : PM5Device -> M A) w :
  (let! d := get_this in k d) w = k (this w) w.
Proof. reflexivity. Qed.

Lemma mbind_ok {A B} (c : M A) (k : A -> M B) w a w' :
  c w = (inr a, w') -> (let! x := c in k x) w = k a w'.
Proof. intros H. unfold mbind. rewrite H. reflexivity. Qed.

Lemma try_catch_ok {A} (body : M A) handle w a w' :
  body w = (inr a, w') -> try_catch body handle w = (inr a, w').
Proof. intros H. unfold try_catch. rewrite H. reflexivity. Qed.

Lemma request_eq o c w :
  request o c w =
    if o c then (inr tt, logged [Issued c] w)
    else (inl (Rejected c), logged [Issued c] w).
Proof.
  unfold request, mbind, emit, mret, mthrow, logged. cbn.
  destruct (o c); reflexivity.
Qed.

Lemma getCharacteristic_eq o svc u w :
  getCharacteristic o svc u w =
    match svc (services (this w)) with
    | None => (inl TypeError, w)
    | Some service =>
        if o (GetCharacteristic service u)
        then (inr (service, u), logged [Issued (GetCharacteristic service u)] w)
        else (inl (Rejected (GetCharacteristic service u)),
              logged [Issued (GetCharacteristic service u)] w)
    end.
Proof.
  unfold getCharacteristic, mbind, get_this, defined.
  destruct (svc (services (this w))) as [service |]; [| reflexivity].
  unfold mret. rewrite request_eq.
  destruct (o (GetCharacteristic service u)); reflexivity.
Qed.

Lemma rethrow_eq {A} label e w :
  (console_error label e ;; @mthrow A e) w =
    (inl e, logged [ConsoleError label e] w).
Proof. reflexivity. Qed.

(** The monitor works on the characteristic objects it has cached: what its
    two methods do depends on the listeners, the discovered characteristics
    and the subscription record only. *)
Ltac by_request o :=
  repeat match goal with
         | |- context [o ?c] => destruct (o c); cbn
         end.

Ltac monitor_steps :=
  unfold unsubscribeFromCharacteristic, try_catch, mbind, get_this,
    removeEventListener, addEventListener, new_function, request,
    modify_this, emit, console_error, mret, mthrow;
  cbn [this plat trace fst snd activeCharacteristicSubscription
       notifyCapableCharacteristics sub_characteristic sub_handler
       set_activeCharacteristicSubscription listeners next_function].



Lemma unsubscribe_first_request o sub w :
  activeCharacteristicSubscription (this w) = Some sub ->
  head (effects_of (unsubscribeFromCharacteristic o) w) =
    Some (Issued (StopNotifications (sub_characteristic sub))).
Proof.
  intros H. unfold effects_of. monitor_steps. rewrite H. monitor_steps.
  by_request o; rewrite <- ?app_assoc, drop_app_length; reflexivity.
Qed.

Lemma subscribe_first_request o u info w :
  activeCharacteristicSubscription (this w) = None ->
  List.find (fun c => String.eqb (ci_uuid c) u)
            (notifyCapableCharacteristics (this w)) = Some info ->
  head (effects_of (subscribeToCharacteristic o u) w) =
    Some (Issued (StartNotifications (ci_characteristic info))).
Proof.
  intros H Hf. unfold effects_of, subscribeToCharacteristic. monitor_steps.
  rewrite H.
  change (bool_decide (is_Some (@None subscription))) with false.
  cbn [when]. monitor_steps. rewrite Hf. monitor_steps.
  by_request o; rewrite <- ?app_assoc, drop_app_length; reflexivity.
Qed.




(** ** Control bytes *)

Lemma hex_value_range a : 0 <= hex_value a <= 15.
Proof.
  unfold hex_value, hex_digit_value.
  generalize (Z.of_nat (nat_of_ascii a)). intros n.
  destruct (Z.leb_spec0 48 n), (Z.leb_spec0 n 57),
           (Z.leb_spec0 97 n), (Z.leb_spec0 n 102),
           (Z.leb_spec0 65 n), (Z.leb_spec0 n 70);
    cbn; lia.
Qed.

Lemma parseInt16_pair a b : parseInt16 [a; b] = 16 * hex_value a + hex_value b.
Proof. unfold parseInt16, hex_value. cbn. lia. Qed.

Lemma substr_pair (s : list ascii) i a b :
  s !! (2 * i)%nat = Some a -> s !! (2 * i + 1)%nat = Some b ->
  substr s (2 * i) 2 = [a; b].
Proof.
  intros Ha Hb. unfold substr.
  rewrite <- (Nat.add_0_r (2 * i)) in Ha.
  rewrite <- lookup_drop in Ha, Hb.
  generalize dependent (drop (2 * i) s). intros t Ha Hb.
  destruct t as [| x [| y rest]]; simplify_eq/=; reflexivity.
Qed.

Lemma control_bytes_length clean :
  length (control_bytes clean) = (length clean / 2)%nat.
Proof. unfold control_bytes. rewrite length_map, length_seq. reflexivity. Qed.

Lemma control_bytes_lookup clean i a b :
  clean !! (2 * i)%nat = Some a -> clean !! (2 * i + 1)%nat = Some b ->
  control_bytes clean !! i = Some (16 * hex_value a + hex_value b).
Proof.
  intros Ha Hb. unfold control_bytes.
  assert (Hi : (i < length clean / 2)%nat).
  { apply lookup_lt_Some in Hb. apply Nat.div_le_lower_bound; lia. }
  rewrite list_lookup_fmap, lookup_seq_lt by exact Hi.
  cbn [fmap option_fmap option_map Nat.add].
  rewrite (substr_pair clean i a b Ha Hb), parseInt16_pair.
  unfold to_uint8.
  pose proof (hex_value_range a). pose proof (hex_value_range b).
  rewrite Z.mod_small by lia. reflexivity.
Qed.

Lemma odd_mod2 n : Nat.Odd n -> (n mod 2 =? 0)%nat = false.
Proof.
  intros [m ->].
  rewrite Nat.add_comm, Nat.mul_comm, Nat.Div0.mod_add. reflexivity.
Qed.

Lemma even_mod2 n : Nat.Even n -> (n mod 2 =? 0)%nat = true.
Proof.
  intros [m ->]. rewrite Nat.mul_comm, Nat.Div0.mod_mul. reflexivity.
Qed.

(** C10 as amended.  [sendControlBytes] keeps the hexadecimal digits of its
    input.  With an odd number of digits it raises the length error and issues
    no request.  With an even number n of digits it builds n/2 bytes, byte i
    being 16 * (digit 2i) + (digit 2i+1), and asks the platform to write
    exactly these bytes to the transmit characteristic; the call returns
    [true] when the control service is known and both requests resolve, and
    otherwise re-raises the TypeError or the rejection. *)
Theorem sendControlBytes_spec K o hexString w :
  let digits := cleanHex hexString in
  let bytes := control_bytes digits in
  let label := "Error sending control bytes:"%string in
  digits = List.filter is_hex_digit (String.list_ascii_of_string hexString) /\
  (Nat.Odd (length digits) ->
     sendControlBytes K o hexString w =
       (inl (Error HexOddLength),
        logged [ConsoleError label (Error HexOddLength)] w)) /\
  (Nat.Even (length digits) ->
     length bytes = (length digits / 2)%nat /\
     (forall i a b,
         digits !! (2 * i)%nat = Some a -> digits !! (2 * i + 1)%nat = Some b ->
         bytes !! i = Some (16 * hex_value a + hex_value b)) /\
     sendControlBytes K o hexString w =
       match control (services (this w)) with
       | None => (inl TypeError, logged [ConsoleError label TypeError] w)
       | Some service =>
           let get := GetCharacteristic service (TRANSMIT K) in
           let write := WriteValue (service, TRANSMIT K) bytes in
           if o get then
             if o write then (inr true, logged [Issued get; Issued write] w)
             else (inl (Rejected write),
                   logged [Issued get; Issued write;
                           ConsoleError label (Rejected write)] w)
           else (inl (Rejected get),
                 logged [Issued get; ConsoleError label (Rejected get)] w)
       end) /\
  (forall hexString',
      cleanHex hexString' = digits ->
      sendControlBytes K o hexString' w = sendControlBytes K o hexString w).
Proof.
  intros digits bytes label.
  split; [reflexivity |]. split; [| split].
  - intros Hodd.
    unfold sendControlBytes, try_catch. unfold mbind at 1.
    fold digits. rewrite (odd_mod2 _ Hodd).
    reflexivity.
  - intros Heven.
    split; [apply control_bytes_length |].
    split; [apply control_bytes_lookup |].
    unfold sendControlBytes, try_catch. unfold mbind at 1.
    fold digits. fold bytes.
    rewrite (even_mod2 _ Heven).
    cbn [mret]. unfold mbind at 1.
    rewrite getCharacteristic_eq.
    destruct (control (services (this w))) as [service |]; [| reflexivity].
    cbn zeta.
    destruct (o (GetCharacteristic service (TRANSMIT K)));
      [| rewrite rethrow_eq, logged_logged; reflexivity].
    unfold mbind at 1. rewrite request_eq.
    destruct (o (WriteValue (service, TRANSMIT K) bytes)).
    + unfold mret. rewrite logged_logged. reflexivity.
    + rewrite rethrow_eq, !logged_logged. reflexivity.
  - intros hexString' Hsame. unfold sendControlBytes.
    rewrite Hsame. reflexivity.
Qed.

(** The theorem at the input "F1 76-0a" in the connected sample session. *)
Lemma sendControlBytes_spec_witness :
  sendControlBytes sample_constants resolves "F1 76-0a" connected_session =
    (inr true,
     logged [Issued (GetCharacteristic "control" "transmit");
             Issued (WriteValue ("control", "transmit") [241; 118; 10])]
       connected_session).
Proof.
  destruct (sendControlBytes_spec sample_constants resolves "F1 76-0a"
              connected_session) as (_ & _ & Heven & _).
  destruct Heven as (_ & _ & E); [exists 3%nat; reflexivity |].
  rewrite E. reflexivity.
Defined.

(** C10 as stated fails: a call with an even number of digits raises when the
    control service is not known.  On a freshly constructed device, the input
    "00" (two digits) raises a TypeError. *)
Lemma sendControlBytes_raises_on_even_input :
  length (cleanHex "00") = 2%nat /\
  sendControlBytes sample_constants resolves "00" constructor =
    (inl TypeError,
     logged [ConsoleError "Error sending control bytes:" TypeError]
       constructor) /\
  ~ (forall K o hexString w,
       (exists e, fst (sendControlBytes K o hexString w) = inl e) <->
       Nat.Odd (length (cleanHex hexString))).
Proof.
  split; [reflexivity |]. split; [reflexivity |].
  intros H.
  destruct (proj1 (H sample_constants resolves "00"%string constructor))
    as [m Hm].
  - exists TypeError. reflexivity.
  - change (length (cleanHex "00")) with 2%nat in Hm. lia.
Qed.

(** ** Notification dispatch *)

Lemma run_listener_eq l value now w :
  run_listener l value now w =
    (inr tt, logged (listener_effects (this w) l value now) w).
Proof.
  destruct w as [d p t]. destruct l as [n h]. destruct d as [? ? ? ? cb ? ?].
  unfold listener_effects.
  destruct h; run_handler;
    case_decode;
    cbn [mx_data on];
    destruct cb as [[] [] [] [] [] []];
    cbn [onWorkoutData onStrokeData onSplitData onControlRxData
         onCharacteristicData app];
    rewrite ?app_nil_r; reflexivity.
Qed.

Lemma dispatch_eq ls value now w :
  dispatch ls value now w =
    (inr tt,
     logged (concat (List.map (fun l => listener_effects (this w) l value now)
                              ls)) w).
Proof.
  revert w. induction ls as [| l ls IH]; intros w.
  - cbn. rewrite logged_nil. reflexivity.
  - cbn [dispatch List.map concat]. unfold mbind.
    rewrite run_listener_eq, IH, logged_logged. reflexivity.
Qed.

Lemma characteristicvaluechanged_eq c value now w :
  characteristicvaluechanged c value now w =
    (inr tt,
     logged (concat (List.map (fun l => listener_effects (this w) l value now)
                              (listeners_of c (plat w)))) w).
Proof. unfold characteristicvaluechanged. apply dispatch_eq. Qed.

Lemma listener_effects_decode_error d l value now e :
  decode_error (fn_code l) (view value) = Some e ->
  listener_effects d l value now = [ConsoleError (error_label (fn_code l)) e].
Proof.
  destruct l as [n h]. unfold listener_effects, decode_error, failure.
  cbn [fn_code].
  destruct h; try discriminate; run_handler;
    match goal with
    | |- context [match ?r with inl _ => _ | inr _ => _ end] => destruct r
    end;
    intros [= ->]; reflexivity.
Qed.

Lemma listener_effects_caught d l value now e :
  Uncaught e ∉ listener_effects d l value now.
Proof.
  destruct l as [n h]. destruct d as [? ? ? ? cb ? ?].
  unfold listener_effects.
  destruct h; run_handler;
    case_decode;
    cbn [mx_data on];
    destruct cb as [[] [] [] [] [] []];
    cbn [onWorkoutData onStrokeData onSplitData onControlRxData
         onCharacteristicData app];
    intros Hin; repeat (apply elem_of_cons in Hin as [Hin | Hin];
                        [discriminate |]);
    apply elem_of_nil in Hin; exact Hin.
Qed.

Lemma decode_error_structured h value e :
  decode_error h value = Some e ->
  h <> HandleMultiplexedDataUpdate ->
  exists kind,
    e = Error (InvalidDataLength kind (byteLength value) (min_length kind)).
Proof.
  intros He Hh.
  assert (Hk : exists kind, parse_record kind value false = inl e).
  { destruct h; try discriminate; try congruence; cbn [decode_error] in He;
      [exists general_status | exists additional_status | exists stroke_data
      | exists split_data | exists general_status | exists additional_status
      | exists stroke_data | exists split_data];
      unfold parse_record, bind;
      match goal with
      | H : failure ?r = Some _ |- _ => destruct r; cbn in H; congruence
      end. }
  destruct Hk as [kind Hk]. exists kind.
  rewrite (parse_record_error _ _ _ _ Hk). cbn [mux_offset].
  rewrite Nat.add_0_r. reflexivity.
Qed.

Lemma decode_error_multiplexed (dataView : DataView) e :
  decode_error HandleMultiplexedDataUpdate dataView = Some e ->
  (dataView = [] /\ e = RangeError) \/
  (exists kind,
      e = Error (InvalidDataLength kind (byteLength dataView)
                   (min_length kind + 1))).
Proof.
  cbn [decode_error]. intros He. apply parseMultiplexedData_error.
  destruct (parseMultiplexedData dataView); cbn in He; congruence.
Qed.

(** C7 as amended.  Dispatching a notification never raises and lets no
    exception leave a listener; it changes neither the device object nor the
    registered listeners, it only adds effects.  A listener whose decode
    fails writes one [console.error] line, with its label and the error, and
    does nothing else: no consumer function is called.  The error carries the
    record kind with the actual and the expected length; only the multiplexed
    listener of the CSAFE variant has a second failure, the RangeError of an
    empty frame.  Any later notification, on the same or on another
    characteristic, is processed as it would have been without the failing
    one, and a listener whose decode then succeeds passes the record once to
    the consumer function of its slot, when one is assigned. *)
Theorem decode_failure_is_recovered c value now w :
  let out :=
    concat (List.map (fun l => listener_effects (this w) l value now)
                     (listeners_of c (plat w))) in
  let w' := snd (characteristicvaluechanged c value now w) in
  let call (slot : callbacks -> bool) e :=
    if slot (on (this w)) then [e] else [] in
  characteristicvaluechanged c value now w = (inr tt, logged out w) /\
  this w' = this w /\
  plat w' = plat w /\
  (forall e, Uncaught e ∉ out) /\
  (forall l e,
      decode_error (fn_code l) (view value) = Some e ->
      listener_effects (this w) l value now =
        [ConsoleError (error_label (fn_code l)) e] /\
      (fn_code l <> HandleMultiplexedDataUpdate ->
       exists kind,
         e = Error (InvalidDataLength kind (byteLength (view value))
                      (min_length kind))) /\
      (fn_code l = HandleMultiplexedDataUpdate ->
       (view value = [] /\ e = RangeError) \/
       exists kind,
         e = Error (InvalidDataLength kind (byteLength (view value))
                      (min_length kind + 1)))) /\
  (forall c2 value2 now2,
      characteristicvaluechanged c2 value2 now2 w' =
        (inr tt,
         logged (concat (List.map
                           (fun l => listener_effects (this w) l value2 now2)
                           (listeners_of c2 (plat w)))) w') /\
      forall n,
        let run h :=
          listener_effects (this w) {| fn_id := n; fn_code := h |}
                           value2 now2 in
        (forall d, parseGeneralStatus (view value2) false = inr d ->
           run OnGeneralStatus =
             call onWorkoutData
               (CallOnWorkoutData None (WorkoutGeneralStatus d)) /\
           run HandleGeneralStatusUpdate =
             call onWorkoutData
               (CallOnWorkoutData (Some now2) (WorkoutGeneralStatus d))) /\
        (forall d, parseAdditionalStatus (view value2) false = inr d ->
           run OnAdditionalStatus =
             call onWorkoutData
               (CallOnWorkoutData None (WorkoutAdditionalStatus d)) /\
           run HandleAdditionalStatusUpdate =
             call onWorkoutData
               (CallOnWorkoutData (Some now2) (WorkoutAdditionalStatus d))) /\
        (forall d, parseStrokeData (view value2) false = inr d ->
           run OnStrokeData = call onStrokeData (CallOnStrokeData None d) /\
           run HandleStrokeDataUpdate =
             call onStrokeData (CallOnStrokeData (Some now2) d)) /\
        (forall d, parseSplitIntervalData (view value2) false = inr d ->
           run OnSplitData = call onSplitData (CallOnSplitData None d) /\
           run HandleSplitDataUpdate =
             call onSplitData (CallOnSplitData (Some now2) d)) /\
        (forall p, parseMultiplexedData (view value2) = inr p ->
           run HandleMultiplexedDataUpdate =
             match mx_data p with
             | DataGeneralStatus d =>
                 call onWorkoutData
                   (CallOnWorkoutData (Some now2) (WorkoutGeneralStatus d))
             | DataStrokeData d =>
                 call onStrokeData (CallOnStrokeData (Some now2) d)
             | _ => []
             end)).
Proof.
  intros out w' call. subst out w' call.
  rewrite characteristicvaluechanged_eq. cbn [snd].
  split; [reflexivity |]. split; [reflexivity |]. split; [reflexivity |].
  split; [| split].
  - intros e Hin. apply list_elem_of_In, in_concat in Hin.
    destruct Hin as (x & Hx & Hin). apply in_map_iff in Hx.
    destruct Hx as (l & <- & _).
    apply list_elem_of_In in Hin.
    exact (listener_effects_caught _ _ _ _ _ Hin).
  - intros l e He. split; [| split].
    + exact (listener_effects_decode_error _ _ _ _ _ He).
    + intros Hh. exact (decode_error_structured _ _ _ He Hh).
    + intros Hh. rewrite Hh in He. exact (decode_error_multiplexed _ _ He).
  - intros c2 value2 now2.
    split; [rewrite characteristicvaluechanged_eq; reflexivity |].
    intros n. cbn [logged this].
    destruct (this w) as [? ? ? ? [c1 c3 c4 c5 c6 c7] ? ?].
    unfold listener_effects.
    repeat match goal with |- _ /\ _ => split end;
      intros r Hr; try split; run_handler; rewrite Hr;
      try (destruct r as [? ? []]);
      cbn [on onWorkoutData onStrokeData onSplitData mx_data];
      try reflexivity;
      match goal with
      | |- context [if ?b then _ else _] => destruct b; reflexivity
      end.
Qed.

(** The theorem in the sample session with the rowing streams started: an
    18-byte general-status notification is logged and dropped. *)
Lemma decode_failure_is_recovered_witness :
  listener_effects
    (this (run (startRowingDataNotifications sample_constants resolves)
               connected_session))
    {| fn_id := 0; fn_code := OnGeneralStatus |}
    (whole (take 18 sample_general_status)) 0 =
  [ConsoleError "Error parsing general status:"
     (Error (InvalidDataLength general_status 18 19))].
Proof.
  apply (decode_failure_is_recovered ("rowing", "general-status")
           (whole (take 18 sample_general_status)) 0
           (run (startRowingDataNotifications sample_constants resolves)
              connected_session)).
  reflexivity.
Defined.

(** C7 as stated fails: no parse-error event is emitted.  In the sample
    session every consumer function is assigned and the rowing streams are
    started; an 18-byte general-status notification then has one effect, the
    [console.error] line of the listener, and no consumer function is called.
    In the CSAFE variant the error of an empty multiplexed frame is not even
    a structured one: it is the RangeError of reading byte 0. *)
Lemma decode_failure_calls_no_consumer :
  let w := run (startRowingDataNotifications sample_constants resolves)
               connected_session in
  on (this w) = all_callbacks /\
  effects_of (characteristicvaluechanged ("rowing", "general-status")
                (whole (take 18 sample_general_status)) 0) w =
    [ConsoleError "Error parsing general status:"
       (Error (InvalidDataLength general_status 18 19))] /\
  listener_effects (this w)
    {| fn_id := 0; fn_code := HandleMultiplexedDataUpdate |} (whole []) 0 =
    [ConsoleError "Error parsing multiplexed data:" RangeError].
Proof.
  repeat split; vm_compute; reflexivity.
Qed.

(** ** Subscriptions *)

Lemma unsubscribe_active o sub w :
  activeCharacteristicSubscription (this w) = Some sub ->
  o (StopNotifications (sub_characteristic sub)) = true ->
  unsubscribeFromCharacteristic o w =
    (inr tt,
     {| this := set_activeCharacteristicSubscription None (this w);
        plat := {| listeners :=
                     <[sub_characteristic sub :=
                         filter (fun l' => l' <> sub_handler sub)
                                (listeners_of (sub_characteristic sub) (plat w))]>
                       (listeners (plat w));
                   next_function := next_function (plat w) |};
        trace := trace w ++ [Issued (StopNotifications (sub_characteristic sub))] |}).
Proof.
  intros H Ho. unfold unsubscribeFromCharacteristic, mbind at 1, get_this.
  rewrite H. unfold try_catch, mbind at 1, removeEventListener.
  unfold mbind at 1. rewrite request_eq, Ho. reflexivity.
Qed.

Lemma subscribe_idle o u info w :
  activeCharacteristicSubscription (this w) = None ->
  List.find (fun c => String.eqb (ci_uuid c) u)
            (notifyCapableCharacteristics (this w)) = Some info ->
  o (StartNotifications (ci_characteristic info)) = true ->
  let c := ci_characteristic info in
  let h := {| fn_id := next_function (plat w); fn_code := OnCharacteristic u |} in
  let ls := listeners_of c (plat w) in
  subscribeToCharacteristic o u w =
    (inr true,
     {| this := set_activeCharacteristicSubscription
                  (Some {| sub_uuid := u; sub_characteristic := c;
                           sub_handler := h |}) (this w);
        plat := {| listeners :=
                     <[c := if bool_decide (h ∈ ls) then ls else ls ++ [h]]>
                       (listeners (plat w));
                   next_function := S (next_function (plat w)) |};
        trace := trace w ++ [Issued (StartNotifications c)] |}).
Proof.
  intros Hidle Hfind Ho c h ls. subst c h ls.
  unfold subscribeToCharacteristic. apply try_catch_ok.
  rewrite mbind_get_this, Hidle.
  change (bool_decide (is_Some (@None subscription))) with false.
  cbn [when]. rewrite (mbind_ok _ _ w tt w) by reflexivity.
  rewrite mbind_get_this, Hfind.
  rewrite (mbind_ok _ _ w tt _ ltac:(rewrite request_eq, Ho; reflexivity)).
  reflexivity.
Qed.

Lemma subscribe_active o u sub w :
  activeCharacteristicSubscription (this w) = Some sub ->
  o (StopNotifications (sub_characteristic sub)) = true ->
  subscribeToCharacteristic o u w =
    subscribeToCharacteristic o u (snd (unsubscribeFromCharacteristic o w)).
Proof.
  intros H Ho.
  pose proof (unsubscribe_active o sub w H Ho) as Hun.
  rewrite Hun. cbn [snd].
  unfold subscribeToCharacteristic, try_catch.
  rewrite !mbind_get_this, H.
  cbn [this set_activeCharacteristicSubscription
       activeCharacteristicSubscription].
  change (bool_decide (is_Some (Some sub))) with true.
  change (bool_decide (is_Some (@None subscription))) with false.
  cbn [when].
  rewrite (mbind_ok _ _ w tt _ Hun).
  rewrite (mbind_ok (mret tt) _ _ tt _ eq_refl).
  reflexivity.
Qed.

Lemma fresh_not_registered (ls : list listener) n code :
  Forall (fun l => (fn_id l < n)%nat) ls ->
  {| fn_id := n; fn_code := code |} ∉ ls.
Proof.
  intros Hall Hin. rewrite Forall_forall in Hall.
  specialize (Hall _ Hin). cbn in Hall. lia.
Qed.

Lemma remove_last_registered (ls : list listener) h :
  h ∉ ls -> filter (fun l' => l' <> h) (ls ++ [h]) = ls.
Proof.
  intros Hnot. rewrite filter_app.
  rewrite (filter_cons_False _ h []) by (intros Hne; apply Hne; reflexivity).
  rewrite filter_nil, app_nil_r.
  induction ls as [| x ls IH]; [reflexivity |].
  apply not_elem_of_cons in Hnot as [Hx Hls].
  rewrite filter_cons_True by congruence.
  f_equal. apply IH, Hls.
Qed.

Lemma listeners_of_insert (c : characteristic) (ls : list listener)
    (m : gmap characteristic (list listener)) (n : nat) :
  listeners_of c {| listeners := <[c := ls]> m; next_function := n |} = ls.
Proof. unfold listeners_of. cbn. rewrite lookup_insert_eq. reflexivity. Qed.

Lemma listener_effects_on d d' l value now :
  on d = on d' ->
  listener_effects d l value now = listener_effects d' l value now.
Proof.
  destruct d as [? ? ? ? cb ? ?], d' as [? ? ? ? cb' ? ?]. cbn [on].
  intros ->. destruct l as [n h]. unfold listener_effects.
  destruct h; run_handler; case_decode; cbn [mx_data on];
    repeat match goal with
           | |- context [if ?b then _ else _] => destruct b
           end;
    reflexivity.
Qed.




(* ===================================================================== *)
(** * Further properties of the code *)
(* ===================================================================== *)

(** ** parsers.js *)

(** X1.  Layout of the additional status: a view of at least 16 bytes decodes
    to the 24-bit elapsed time at 0 (times 0.01), the 16-bit speed at 3
    (times 0.001), the bytes at 5 and 6, the 16-bit paces at 7 and 9 (times
    0.01), the 16-bit rest distance at 11 and the 24-bit rest time at 13
    (times 0.01), all little-endian; bytes after the sixteenth are not read. *)
Theorem parseAdditionalStatus_layout
    b0 b1 b2 b3 b4 b5 b6 b7 b8 b9 b10 b11 b12 b13 b14 b15 (rest : DataView) :
  parseAdditionalStatus
    (b0 :: b1 :: b2 :: b3 :: b4 :: b5 :: b6 :: b7 :: b8 :: b9 :: b10 ::
     b11 :: b12 :: b13 :: b14 :: b15 :: rest) false =
  inr {| as_elapsed_time :=
           JS.times (u8 b0 + 256 * u8 b1 + 65536 * u8 b2) 0.01;
         as_speed := JS.times (u8 b3 + 256 * u8 b4) 0.001;
         as_stroke_rate := u8 b5;
         as_heart_rate := u8 b6;
         as_current_pace := JS.times (u8 b7 + 256 * u8 b8) 0.01;
         as_average_pace := JS.times (u8 b9 + 256 * u8 b10) 0.01;
         as_rest_distance := u8 b11 + 256 * u8 b12;
         as_rest_time :=
           JS.times (u8 b13 + 256 * u8 b14 + 65536 * u8 b15) 0.01 |}.
Proof.
  read_fields. rewrite !shl_u8_8, !shl_u8_16. reflexivity.
Qed.

(** X2.  Layout of the stroke data: a view of at least 20 bytes decodes to
    the 24-bit elapsed time at 0 (times 0.01) and distance at 3 (times 0.1),
    the bytes at 6 and 7 (times 0.01), the 16-bit fields at 8 and 10 (times
    0.01), at 12, 14 and 16 (times 0.1) and the 16-bit stroke count at 18. *)
Theorem parseStrokeData_layout
    b0 b1 b2 b3 b4 b5 b6 b7 b8 b9 b10 b11 b12 b13 b14 b15 b16 b17 b18 b19
    (rest : DataView) :
  parseStrokeData
    (b0 :: b1 :: b2 :: b3 :: b4 :: b5 :: b6 :: b7 :: b8 :: b9 :: b10 ::
     b11 :: b12 :: b13 :: b14 :: b15 :: b16 :: b17 :: b18 :: b19 :: rest)
    false =
  inr {| sd_elapsed_time :=
           JS.times (u8 b0 + 256 * u8 b1 + 65536 * u8 b2) 0.01;
         sd_distance := JS.times (u8 b3 + 256 * u8 b4 + 65536 * u8 b5) 0.1;
         sd_drive_length := JS.times (u8 b6) 0.01;
         sd_drive_time := JS.times (u8 b7) 0.01;
         sd_stroke_recovery_time := JS.times (u8 b8 + 256 * u8 b9) 0.01;
         sd_stroke_distance := JS.times (u8 b10 + 256 * u8 b11) 0.01;
         sd_peak_drive_force := JS.times (u8 b12 + 256 * u8 b13) 0.1;
         sd_average_drive_force := JS.times (u8 b14 + 256 * u8 b15) 0.1;
         sd_work_per_stroke := JS.times (u8 b16 + 256 * u8 b17) 0.1;
         sd_stroke_count := u8 b18 + 256 * u8 b19 |}.
Proof.
  read_fields. rewrite !shl_u8_8, !shl_u8_16. reflexivity.
Qed.

(** X3.  Layout of the split data: a view of at least 18 bytes decodes to
    the 24-bit elapsed time at 0 (times 0.01), the 24-bit distance, split time
    and split distance at 3, 6 and 9 (times 0.1), the 16-bit rest time and
    rest distance at 12 and 14, and the bytes at 16 and 17. *)
Theorem parseSplitIntervalData_layout
    b0 b1 b2 b3 b4 b5 b6 b7 b8 b9 b10 b11 b12 b13 b14 b15 b16 b17
    (rest : DataView) :
  parseSplitIntervalData
    (b0 :: b1 :: b2 :: b3 :: b4 :: b5 :: b6 :: b7 :: b8 :: b9 :: b10 ::
     b11 :: b12 :: b13 :: b14 :: b15 :: b16 :: b17 :: rest) false =
  inr {| sp_elapsed_time :=
           JS.times (u8 b0 + 256 * u8 b1 + 65536 * u8 b2) 0.01;
         sp_distance := JS.times (u8 b3 + 256 * u8 b4 + 65536 * u8 b5) 0.1;
         sp_split_time := JS.times (u8 b6 + 256 * u8 b7 + 65536 * u8 b8) 0.1;
         sp_split_distance :=
           JS.times (u8 b9 + 256 * u8 b10 + 65536 * u8 b11) 0.1;
         sp_rest_time := u8 b12 + 256 * u8 b13;
         sp_rest_distance := u8 b14 + 256 * u8 b15;
         sp_split_type := u8 b16;
         sp_split_number := u8 b17 |}.
Proof.
  read_fields. rewrite !shl_u8_8, !shl_u8_16. reflexivity.
Qed.

(** Bounds of every byte in the context, for [lia]. *)
Ltac byte_ranges :=
  repeat match goal with
         | b : Byte.byte |- _ =>
             lazymatch goal with
             | H : 0 <= u8 b < 256 |- _ => fail
             | _ => pose proof (u8_range b)
             end
         end.

(** From a successful decode to an explicit prefix of the view. *)
Ltac decoded H dv :=
  match type of H with
  | ?f dv ?m = inr _ =>
      unfold f in H;
      destruct (byteLength dv <? _)%nat eqn:Hlen in H; [discriminate |];
      apply Nat.ltb_ge in Hlen; unfold byteLength in Hlen;
      destruct m; cbn [mux_offset Nat.add] in Hlen; explode dv;
      revert H; read_fields; rewrite ?shl_u8_8, ?shl_u8_16;
      intros [= <-]; cbn
  end.

(** X4.  No sign extension anywhere: in every record either decoder returns,
    multiplexed or not, each integer field read from one byte lies in
    [0, 255], each 16-bit field in [0, 65535] and each 24-bit field in
    [0, 2^24 - 1]. *)
Theorem decoded_integer_fields_unsigned (dataView : DataView) m :
  (forall d, parseGeneralStatus dataView m = inr d ->
     0 <= gs_workout_type d <= 255 /\ 0 <= gs_interval_type d <= 255 /\
     0 <= gs_workout_state d <= 255 /\ 0 <= gs_rowing_state d <= 255 /\
     0 <= gs_stroke_state d <= 255 /\
     0 <= gs_total_work_distance d <= 16777215 /\
     0 <= gs_workout_duration d <= 16777215 /\
     0 <= gs_workout_duration_type d <= 255 /\
     0 <= gs_drag_factor d <= 255) /\
  (forall d, parseAdditionalStatus dataView m = inr d ->
     0 <= as_stroke_rate d <= 255 /\ 0 <= as_heart_rate d <= 255 /\
     0 <= as_rest_distance d <= 65535) /\
  (forall d, parseStrokeData dataView m = inr d ->
     0 <= sd_stroke_count d <= 65535) /\
  (forall d, parseSplitIntervalData dataView m = inr d ->
     0 <= sp_rest_time d <= 65535 /\ 0 <= sp_rest_distance d <= 65535 /\
     0 <= sp_split_type d <= 255 /\ 0 <= sp_split_number d <= 255).
Proof.
  repeat match goal with |- _ /\ _ => split end;
    intros d H; decoded H dataView; byte_ranges; lia.
Qed.

(** The theorem at the worked example. *)
Lemma decoded_integer_fields_unsigned_witness :
  0 <= gs_drag_factor sample_record <= 255.
Proof.
  apply (proj1 (decoded_integer_fields_unsigned sample_general_status false)
           sample_record).
  vm_compute. reflexivity.
Defined.

(** X5.  Each of the four tags routes to its decoder at payload offset 1:
    for a payload of at least the minimum length of the kind, the multiplexed
    frame made of the tag and the payload decodes to the object whose [type]
    names the kind and whose [data] is the record the payload decodes to on
    its own. *)
Theorem parseMultiplexedData_payload kind (payload : DataView) :
  (min_length kind <= byteLength payload)%nat ->
  exists r,
    parse_record kind payload false = inr r /\
    parseMultiplexedData (tag_of kind :: payload) =
      inr {| mx_type := type_of kind; mx_uuid := None; mx_data := data_of r |}.
Proof.
  intros Hlen.
  destruct (parse_record_long kind payload false) as [[r Hr] _];
    [cbn [mux_offset]; lia |].
  exists r. split; [exact Hr |].
  rewrite parseMultiplexedData_known, (parse_record_shift _ _ _ Hlen), Hr.
  reflexivity.
Qed.

(** The theorem at the worked example behind tag 0x31. *)
Lemma parseMultiplexedData_payload_witness :
  exists r,
    parse_record general_status sample_general_status false = inr r /\
    parseMultiplexedData (Byte.x31 :: sample_general_status) =
      inr {| mx_type := "general_status"; mx_uuid := None;
             mx_data := data_of r |}.
Proof.
  apply (parseMultiplexedData_payload general_status sample_general_status).
  vm_compute. lia.
Defined.

(** X6.  [parseMultiplexedData] fails in exactly two ways: on an empty view,
    with the RangeError of reading byte 0 (not with a length error); and on a
    frame with one of the four tags that is shorter than the minimum length of
    the kind plus one, with the length error of that kind.  Every other frame
    decodes. *)
Theorem parseMultiplexedData_failure (dataView : DataView) e :
  parseMultiplexedData dataView = inl e <->
  (dataView = [] /\ e = RangeError) \/
  (exists kind rest,
      dataView = tag_of kind :: rest /\
      (byteLength dataView < min_length kind + 1)%nat /\
      e = Error (InvalidDataLength kind (byteLength dataView)
                   (min_length kind + 1))).
Proof.
  destruct dataView as [| tag rest].
  - split.
    + intros [= <-]. left. auto.
    + intros [[_ ->] | (kind & rest & H & _)]; [reflexivity | discriminate].
  - destruct (tag_cases tag) as [[kind ->] | Hother].
    + rewrite parseMultiplexedData_known. split.
      * intros H.
        destruct (parse_record kind (tag_of kind :: rest) true) as [e' | r]
          eqn:Hp; [| discriminate].
        cbn [bind] in H. injection H as <-.
        pose proof (parse_record_error _ _ _ _ Hp) as He.
        cbn [mux_offset] in He.
        right. exists kind, rest. split; [reflexivity |]. split; [| exact He].
        destruct (Nat.lt_ge_cases (byteLength (tag_of kind :: rest))
                    (min_length kind + 1)) as [Hlt | Hge]; [exact Hlt |].
        destruct (parse_record_long kind (tag_of kind :: rest) true Hge)
          as [[r Hr] _].
        congruence.
      * intros [[H _] | (kind' & rest' & Heq & Hlt & ->)]; [discriminate |].
        injection Heq as Htag <-.
        assert (kind' = kind) as ->
          by (destruct kind, kind'; first [reflexivity | discriminate]).
        rewrite (parse_record_short kind (tag_of kind :: rest) true Hlt).
        reflexivity.
    + destruct (parseMultiplexedData_other tag rest Hother) as [r Hr].
      rewrite Hr. split; [discriminate |].
      intros [[H _] | (kind & rest' & Heq & _)]; [discriminate |].
      injection Heq as -> _. destruct kind; discriminate.
Qed.

(** The theorem at the one-byte frame 31. *)
Lemma parseMultiplexedData_failure_witness :
  parseMultiplexedData [Byte.x31] =
    inl (Error (InvalidDataLength general_status 1 20)).
Proof.
  apply (proj2 (parseMultiplexedData_failure [Byte.x31]
                  (Error (InvalidDataLength general_status 1 20)))).
  right. exists general_status, []. repeat split. vm_compute. lia.
Defined.

(** ** Hexadecimal text *)

Lemma byte_hex_digits b :
  exists x y,
    byte_hex b = [x; y] /\ is_hex_digit x = true /\ is_hex_digit y = true /\
    x <> " "%char /\ y <> " "%char /\
    16 * hex_value x + hex_value y = u8 b.
Proof.
  destruct b; eexists _, _; (split; [reflexivity |]);
    repeat split; (reflexivity || discriminate).
Qed.

Lemma string_of_list_ascii_length l :
  String.length (String.string_of_list_ascii l) = length l.
Proof. induction l as [| a l IH]; cbn; congruence. Qed.

Lemma join_hex_length (dataView : DataView) :
  length (join [" "%char] (List.map byte_hex dataView)) =
    (3 * length dataView - 1)%nat.
Proof.
  induction dataView as [| b rest IH]; [reflexivity |].
  destruct (byte_hex_digits b) as (x & y & Hb & _).
  cbn [List.map join]. rewrite Hb.
  destruct rest as [| b' rest]; [reflexivity |].
  cbn [List.map] in *. cbn [app length]. rewrite IH. cbn [length]. lia.
Qed.

Lemma filter_join_hex (dataView : DataView) :
  List.filter is_hex_digit (join [" "%char] (List.map byte_hex dataView)) =
    concat (List.map byte_hex dataView).
Proof.
  induction dataView as [| b rest IH]; [reflexivity |].
  destruct (byte_hex_digits b) as (x & y & Hb & Hx & Hy & _).
  cbn [List.map join concat]. rewrite Hb.
  destruct rest as [| b' rest].
  - cbn. rewrite Hx, Hy. reflexivity.
  - cbn [List.map] in *. cbn [app List.filter]. rewrite Hx, Hy.
    change (is_hex_digit " ") with false. cbn iota. rewrite IH. reflexivity.
Qed.

Lemma control_bytes_cons x y rest :
  control_bytes (x :: y :: rest) =
    to_uint8 (parseInt16 [x; y]) :: control_bytes rest.
Proof.
  unfold control_bytes. cbn [length].
  replace (S (S (length rest)) / 2)%nat with (S (length rest / 2))
    by (change (S (S (length rest))) with (1 * 2 + length rest)%nat;
        rewrite Nat.div_add_l by lia; reflexivity).
  cbn [seq List.map]. f_equal.
  rewrite <- seq_shift, List.map_map. apply List.map_ext. intros k.
  unfold substr. replace (2 * S k)%nat with (S (S (2 * k))) by lia.
  reflexivity.
Qed.

Lemma control_bytes_of_hex (dataView : DataView) :
  control_bytes (concat (List.map byte_hex dataView)) = bytes_of dataView.
Proof.
  induction dataView as [| b rest IH]; [reflexivity |].
  destruct (byte_hex_digits b) as (x & y & Hb & _ & _ & _ & _ & Hv).
  cbn [List.map concat bytes_of]. rewrite Hb. cbn [app].
  rewrite control_bytes_cons, parseInt16_pair, Hv, IH.
  unfold to_uint8. pose proof (u8_range b).
  rewrite Z.mod_small by lia. reflexivity.
Qed.

Lemma cleanHex_dataViewToHex (dataView : DataView) :
  cleanHex (dataViewToHex dataView) = concat (List.map byte_hex dataView).
Proof.
  unfold cleanHex, dataViewToHex.
  rewrite String.list_ascii_of_string_of_list_ascii. apply filter_join_hex.
Qed.

(** X7.  [dataViewToHex] writes two lowercase hexadecimal digits per byte,
    separated by single spaces and with nothing before or after: n bytes give
    3n - 1 characters (none for an empty view).  Reading the text back the
    way [sendControlBytes] does, by stripping what is no hexadecimal digit and
    parsing the digits in pairs, gives exactly the bytes of the view. *)
Theorem dataViewToHex_round_trip (dataView : DataView) :
  String.length (dataViewToHex dataView) = (3 * length dataView - 1)%nat /\
  length (cleanHex (dataViewToHex dataView)) = (2 * length dataView)%nat /\
  control_bytes (cleanHex (dataViewToHex dataView)) = bytes_of dataView.
Proof.
  split; [| split].
  - unfold dataViewToHex.
    rewrite string_of_list_ascii_length. apply join_hex_length.
  - rewrite cleanHex_dataViewToHex.
    induction dataView as [| b rest IH]; [reflexivity |].
    destruct (byte_hex_digits b) as (x & y & Hb & _).
    cbn [List.map concat]. rewrite Hb. cbn [app length]. rewrite IH. lia.
  - rewrite cleanHex_dataViewToHex. apply control_bytes_of_hex.
Qed.

Lemma hex_digits_even (dataView : DataView) :
  Nat.Even (length (concat (List.map byte_hex dataView))).
Proof.
  exists (length dataView).
  induction dataView as [| b rest IH]; [reflexivity |].
  destruct (byte_hex_digits b) as (x & y & Hb & _).
  cbn [List.map concat]. rewrite Hb. cbn [app length]. rewrite IH. lia.
Qed.

(** X8.  What [dataViewToHex] prints, [sendControlBytes] sends back
    unchanged: given the text of a view, and with the control service known
    and both platform requests resolving, the call returns [true] after asking
    the platform to write exactly the bytes of the view to the transmit
    characteristic (no bytes at all for an empty view). *)
Theorem sendControlBytes_dataViewToHex K o (dataView : DataView) w service :
  control (services (this w)) = Some service ->
  o (GetCharacteristic service (TRANSMIT K)) = true ->
  o (WriteValue (service, TRANSMIT K) (bytes_of dataView)) = true ->
  sendControlBytes K o (dataViewToHex dataView) w =
    (inr true,
     logged [Issued (GetCharacteristic service (TRANSMIT K));
             Issued (WriteValue (service, TRANSMIT K) (bytes_of dataView))] w).
Proof.
  intros Hsvc Hget Hwrite.
  unfold sendControlBytes. apply try_catch_ok.
  rewrite cleanHex_dataViewToHex, control_bytes_of_hex.
  rewrite (even_mod2 _ (hex_digits_even dataView)).
  rewrite (mbind_ok (mret tt) _ w tt w eq_refl).
  erewrite mbind_ok;
    [| rewrite getCharacteristic_eq, Hsvc, Hget; reflexivity].
  erewrite mbind_ok; [| rewrite request_eq, Hwrite; reflexivity].
  unfold mret. rewrite logged_logged. reflexivity.
Qed.

(** The theorem in the connected sample session, for the worked example. *)
Lemma sendControlBytes_dataViewToHex_witness :
  sendControlBytes sample_constants resolves
    (dataViewToHex sample_general_status) connected_session =
  (inr true,
   logged [Issued (GetCharacteristic "control" "transmit");
           Issued (WriteValue ("control", "transmit")
                     (bytes_of sample_general_status))] connected_session).
Proof.
  apply (sendControlBytes_dataViewToHex sample_constants resolves
           sample_general_status connected_session "control");
    reflexivity.
Defined.

(** ** Listeners *)

(** X9.  One callback per decoded notification.  When the decoder of a
    listener succeeds, the listener calls the consumer function of its slot
    exactly once with the decoded record (with the clock reading in the CSAFE
    variant) and logs nothing; when no function is assigned to the slot, the
    record is discarded without any trace.  The decoders read the view of
    the value.  The control and monitor listeners decode nothing and hand
    over the bytes of the whole buffer the value is a view of, those outside
    the view included. *)
Theorem listener_delivers_decoded d n (value : CharacteristicValue) now :
  let run h := listener_effects d {| fn_id := n; fn_code := h |} value now in
  let call (slot : callbacks -> bool) e := if slot (on d) then [e] else [] in
  (forall r, parseGeneralStatus (view value) false = inr r ->
     run OnGeneralStatus =
       call onWorkoutData (CallOnWorkoutData None (WorkoutGeneralStatus r)) /\
     run HandleGeneralStatusUpdate =
       call onWorkoutData
         (CallOnWorkoutData (Some now) (WorkoutGeneralStatus r))) /\
  (forall r, parseAdditionalStatus (view value) false = inr r ->
     run OnAdditionalStatus =
       call onWorkoutData (CallOnWorkoutData None (WorkoutAdditionalStatus r)) /\
     run HandleAdditionalStatusUpdate =
       call onWorkoutData
         (CallOnWorkoutData (Some now) (WorkoutAdditionalStatus r))) /\
  (forall r, parseStrokeData (view value) false = inr r ->
     run OnStrokeData = call onStrokeData (CallOnStrokeData None r) /\
     run HandleStrokeDataUpdate =
       call onStrokeData (CallOnStrokeData (Some now) r)) /\
  (forall r, parseSplitIntervalData (view value) false = inr r ->
     run OnSplitData = call onSplitData (CallOnSplitData None r) /\
     run HandleSplitDataUpdate =
       call onSplitData (CallOnSplitData (Some now) r)) /\
  run OnControlRx =
    call onControlRxData (CallOnControlRxData now (bytes_of (buffer value))) /\
  (forall u, run (OnCharacteristic u) =
     call onCharacteristicData
       (CallOnCharacteristicData u now (bytes_of (buffer value)))).
Proof.
  intros run call. subst run call.
  destruct d as [? ? ? ? [c1 c2 c3 c4 c5 c6] ? ?]. unfold listener_effects.
  repeat match goal with |- _ /\ _ => split end;
    try (intros r Hr; split); try intros u;
    run_handler; rewrite ?Hr;
    cbn [on onWorkoutData onStrokeData onSplitData onControlRxData
         onCharacteristicData];
    match goal with
    | |- context [if ?b then _ else _] => destruct b; reflexivity
    end.
Qed.

(** The theorem at the worked example, with every callback assigned. *)
Lemma listener_delivers_decoded_witness :
  listener_effects (this connected_session)
    {| fn_id := 0; fn_code := OnGeneralStatus |}
    (whole sample_general_status) 0 =
  [CallOnWorkoutData None (WorkoutGeneralStatus sample_record)].
Proof.
  apply (listener_delivers_decoded (this connected_session) 0%nat
           (whole sample_general_status) 0).
  vm_compute. reflexivity.
Defined.

(** X10.  The multiplexed listener of the CSAFE variant forwards only two of
    the four kinds.  For a frame that decodes, a general status goes to
    [onWorkoutData] and stroke data to [onStrokeData], each with the clock
    reading; an additional status or split data is decoded and then dropped:
    no callback, no log line.  The frame is the view of the value; what else
    its buffer holds plays no part. *)
Theorem multiplexed_update_forwards_two_kinds d n kind (payload : DataView)
    (skipped trailing : list Byte.byte) now r :
  parse_record kind payload false = inr r ->
  listener_effects d {| fn_id := n; fn_code := HandleMultiplexedDataUpdate |}
    {| skipped := skipped; view := tag_of kind :: payload;
       trailing := trailing |} now =
  match r with
  | RGeneralStatus g =>
      if onWorkoutData (on d)
      then [CallOnWorkoutData (Some now) (WorkoutGeneralStatus g)] else []
  | RStrokeData s =>
      if onStrokeData (on d) then [CallOnStrokeData (Some now) s] else []
  | RAdditionalStatus _ | RSplitData _ => []
  end.
Proof.
  intros Hr.
  assert (Hlen : (min_length kind <= byteLength payload)%nat).
  { destruct (Nat.lt_ge_cases (byteLength payload) (min_length kind))
      as [Hlt | Hge]; [| exact Hge].
    rewrite (parse_record_short kind payload false) in Hr
      by (cbn [mux_offset]; lia).
    discriminate. }
  pose proof (parseMultiplexedData_known kind payload) as Hm.
  rewrite (parse_record_shift _ _ _ Hlen), Hr in Hm. cbn [bind ret] in Hm.
  destruct d as [? ? ? ? [c1 c2 c3 c4 c5 c6] ? ?]. unfold listener_effects.
  run_handler. cbn [view]. rewrite Hm.
  cbn [mx_data data_of on onWorkoutData onStrokeData].
  destruct r; cbn [data_of];
    try match goal with
        | |- context [if ?b then _ else _] => destruct b
        end; reflexivity.
Qed.

(** The theorem at the worked example behind tag 0x31. *)
Lemma multiplexed_update_forwards_two_kinds_witness :
  listener_effects (this connected_session)
    {| fn_id := 0; fn_code := HandleMultiplexedDataUpdate |}
    (whole (Byte.x31 :: sample_general_status)) 7 =
  [CallOnWorkoutData (Some 7) (WorkoutGeneralStatus sample_record)].
Proof.
  apply (multiplexed_update_forwards_two_kinds (this connected_session) 0%nat
           general_status sample_general_status [] [] 7
           (RGeneralStatus sample_record)).
  vm_compute. reflexivity.
Defined.

(** ** Starting and stopping the rowing streams *)

Lemma start_stream_eq o u code w :
  start_stream o u code w =
    match rowing (services (this w)) with
    | None => (inl TypeError, w)
    | Some service =>
        let c := (service, u) in
        if o (GetCharacteristic service u) then
          if o (StartNotifications c) then (inr tt, stream_started c code w)
          else (inl (Rejected (StartNotifications c)),
                logged [Issued (GetCharacteristic service u);
                        Issued (StartNotifications c)] w)
        else (inl (Rejected (GetCharacteristic service u)),
              logged [Issued (GetCharacteristic service u)] w)
    end.
Proof.
  unfold start_stream. unfold mbind at 1. rewrite getCharacteristic_eq.
  destruct (rowing (services (this w))) as [service |]; [| reflexivity].
  destruct (o (GetCharacteristic service u)); [| reflexivity].
  unfold mbind at 1. rewrite request_eq.
  destruct (o (StartNotifications (service, u)));
    [| rewrite logged_logged; reflexivity].
  unfold mbind, new_function, addEventListener, stream_started, register,
    logged.
  cbn. rewrite <- app_assoc. reflexivity.
Qed.

Lemma listeners_of_insert_ne (c c' : characteristic) (ls : list listener)
    (m : gmap characteristic (list listener)) (n n' : nat) :
  c <> c' ->
  listeners_of c' {| listeners := <[c := ls]> m; next_function := n |} =
  listeners_of c' {| listeners := m; next_function := n' |}.
Proof.
  intros Hne. unfold listeners_of. cbn. rewrite lookup_insert_ne by exact Hne.
  reflexivity.
Qed.

Lemma register_prefix l (ls : list listener) : ls `prefix_of` register l ls.
Proof.
  unfold register. destruct (bool_decide (l ∈ ls)).
  - reflexivity.
  - apply prefix_app_r. reflexivity.
Qed.

Lemma register_elem l (ls : list listener) : l ∈ register l ls.
Proof.
  unfold register. destruct (bool_decide (l ∈ ls)) eqn:E.
  - apply bool_decide_eq_true in E. exact E.
  - apply elem_of_app. right. apply list_elem_of_singleton. reflexivity.
Qed.

Lemma register_fresh l (ls : list listener) :
  l ∉ ls -> register l ls = ls ++ [l].
Proof.
  intros H. unfold register. rewrite (bool_decide_eq_false_2 _ H). reflexivity.
Qed.

Lemma keeps_listeners_refl w : keeps_listeners w w.
Proof. split; [reflexivity | intros c; reflexivity]. Qed.

Lemma keeps_listeners_trans w1 w2 w3 :
  keeps_listeners w1 w2 -> keeps_listeners w2 w3 -> keeps_listeners w1 w3.
Proof.
  intros [H1 P1] [H2 P2]. split; [congruence |].
  intros c. etransitivity; [apply P1 | apply P2].
Qed.

Lemma keeps_listeners_logged out w : keeps_listeners w (logged out w).
Proof. split; [reflexivity | intros c; reflexivity]. Qed.

Lemma keeps_listeners_started c code w :
  keeps_listeners w (stream_started c code w).
Proof.
  split; [reflexivity |]. intros c'. unfold stream_started. cbn [plat].
  destruct (decide (c = c')) as [<- | Hne].
  - rewrite listeners_of_insert. apply register_prefix.
  - rewrite (listeners_of_insert_ne c c' _ _ _ (next_function (plat w)) Hne).
    destruct (plat w). reflexivity.
Qed.

Lemma start_stream_keeps o u code w :
  keeps_listeners w (snd (start_stream o u code w)).
Proof.
  rewrite start_stream_eq.
  destruct (rowing (services (this w))) as [service |];
    [| apply keeps_listeners_refl].
  cbv zeta. destruct (o (GetCharacteristic service u));
    [| apply keeps_listeners_logged].
  destruct (o (StartNotifications (service, u)));
    [apply keeps_listeners_started | apply keeps_listeners_logged].
Qed.

Lemma mbind_keeps {A B} (c : M A) (k : A -> M B) w :
  keeps_listeners w (snd (c w)) ->
  (forall a w', keeps_listeners w' (snd (k a w'))) ->
  keeps_listeners w (snd ((let! x := c in k x) w)).
Proof.
  intros Hc Hk. unfold mbind. destruct (c w) as [[e | a] w1]; [exact Hc |].
  eapply keeps_listeners_trans; [exact Hc | apply Hk].
Qed.

Lemma rethrow_keeps {A} (body : M A) label w :
  keeps_listeners w (snd (body w)) ->
  keeps_listeners w
    (snd (try_catch body
            (fun error => console_error label error ;; mthrow error) w)).
Proof.
  intros Hb. unfold try_catch. destruct (body w) as [[e | a] w1]; [| exact Hb].
  rewrite rethrow_eq. cbn [snd].
  eapply keeps_listeners_trans; [exact Hb | apply keeps_listeners_logged].
Qed.

Lemma try_catch_step {A B} (c : M A) (k : A -> M B) handle w a w1 :
  c w = (inr a, w1) ->
  try_catch (let! x := c in k x) handle w = try_catch (k a) handle w1.
Proof. intros H. unfold try_catch, mbind. rewrite H. reflexivity. Qed.

(** X11.  [startRowingDataNotifications] has no rollback.  Whether it
    returns or raises, the device object is unchanged and every listener
    registered before the call is still registered, in the same order; and
    once the general-status requests have resolved, the general-status
    listener it registered stays registered even if a later stream fails.
    When it raises, the last thing recorded is the [console.error] of the
    error it re-raises. *)
Theorem startRowingDataNotifications_no_rollback K o w :
  let r := startRowingDataNotifications K o w in
  keeps_listeners w (snd r) /\
  (forall e, fst r = inl e ->
     exists t, trace (snd r) =
                 t ++ [ConsoleError "Error starting notifications:" e]) /\
  (forall service,
      rowing (services (this w)) = Some service ->
      o (GetCharacteristic service (GENERAL_STATUS K)) = true ->
      o (StartNotifications (service, GENERAL_STATUS K)) = true ->
      {| fn_id := next_function (plat w); fn_code := OnGeneralStatus |}
        ∈ listeners_of (service, GENERAL_STATUS K) (plat (snd r))).
Proof.
  intros r. subst r. split; [| split].
  - unfold startRowingDataNotifications. apply rethrow_keeps.
    repeat (apply mbind_keeps; [apply start_stream_keeps | intros _ ?]).
    apply start_stream_keeps.
  - intros e. unfold startRowingDataNotifications, try_catch.
    match goal with
    | |- context [let (_, _) := ?b w in _] => destruct (b w) as [[e' | a] w1]
    end.
    + rewrite rethrow_eq. cbn [fst snd]. intros [= ->].
      exists (trace w1). reflexivity.
    + discriminate.
  - intros service Hsvc Hget Hstart.
    unfold startRowingDataNotifications.
    erewrite try_catch_step;
      [| rewrite start_stream_eq, Hsvc; cbv zeta; rewrite Hget, Hstart;
         reflexivity].
    match goal with
    | |- _ ∈ listeners_of ?c (plat (snd (try_catch ?body ?h ?w1))) =>
        assert (Hk : keeps_listeners w1 (snd (try_catch body h w1)))
    end.
    { apply rethrow_keeps.
      repeat (apply mbind_keeps; [apply start_stream_keeps | intros _ ?]).
      apply start_stream_keeps. }
    destruct Hk as [_ Hp].
    eapply elem_of_prefix; [| apply Hp].
    unfold stream_started. cbn [plat]. rewrite listeners_of_insert.
    apply register_elem.
Qed.

(** The theorem in the connected sample session, when the platform does not
    have the additional-status characteristic: the call raises and the
    general-status listener stays. *)
Lemma startRowingDataNotifications_no_rollback_witness :
  let o := rejects (GetCharacteristic "rowing" "additional-status") in
  fst (startRowingDataNotifications sample_constants o connected_session) =
    inl (Rejected (GetCharacteristic "rowing" "additional-status")) /\
  {| fn_id := 0; fn_code := OnGeneralStatus |}
    ∈ listeners_of ("rowing", "general-status")
        (plat (snd (startRowingDataNotifications sample_constants o
                      connected_session))).
Proof.
  split; [vm_compute; reflexivity |].
  apply (startRowingDataNotifications_no_rollback sample_constants
           (rejects (GetCharacteristic "rowing" "additional-status"))
           connected_session); reflexivity.
Defined.

Lemma started_this c code w : this (stream_started c code w) = this w.
Proof. reflexivity. Qed.

Lemma started_next c code w :
  next_function (plat (stream_started c code w)) = S (next_function (plat w)).
Proof. reflexivity. Qed.

Lemma started_same c code w :
  listeners_of c (plat (stream_started c code w)) =
    register {| fn_id := next_function (plat w); fn_code := code |}
             (listeners_of c (plat w)).
Proof. unfold stream_started. cbn [plat]. apply listeners_of_insert. Qed.

Lemma started_other c c' code w :
  c <> c' ->
  listeners_of c' (plat (stream_started c code w)) = listeners_of c' (plat w).
Proof.
  intros Hne. unfold stream_started. cbn [plat].
  rewrite (listeners_of_insert_ne c c' _ _ _ (next_function (plat w)) Hne).
  destruct (plat w). reflexivity.
Qed.

Lemma fresh_ids_above w c n code :
  fresh_ids w -> (next_function (plat w) <= n)%nat ->
  {| fn_id := n; fn_code := code |} ∉ listeners_of c (plat w).
Proof.
  intros Hfresh Hn Hin. specialize (Hfresh c _ Hin). cbn in Hfresh. lia.
Qed.

Lemma start_stream_ok o service u code w :
  rowing (services (this w)) = Some service ->
  o (GetCharacteristic service u) = true ->
  o (StartNotifications (service, u)) = true ->
  start_stream o u code w = (inr tt, stream_started (service, u) code w).
Proof.
  intros Hsvc Hget Hstart. rewrite start_stream_eq, Hsvc. cbv zeta.
  rewrite Hget, Hstart. reflexivity.
Qed.

(** X12.  A successful [startRowingDataNotifications] adds exactly one
    listener to each of the four stream characteristics and touches nothing
    else.  With the rowing service known, the four UUIDs distinct and all
    eight requests resolving, the call returns, issues the eight requests in
    order (get, start; four times), appends to each stream characteristic the
    one new arrow function of that stream, after whatever was registered
    there, and leaves every other characteristic and the device object as
    they were.  Listeners therefore accumulate from call to call. *)
Theorem startRowingDataNotifications_adds_one_listener_each K o w service :
  let n := next_function (plat w) in
  let c u := (service, u) in
  rowing (services (this w)) = Some service ->
  NoDup (rowing_streams K) ->
  (forall u, u ∈ rowing_streams K ->
             o (GetCharacteristic service u) = true /\
             o (StartNotifications (c u)) = true) ->
  fresh_ids w ->
  let r := startRowingDataNotifications K o w in
  fst r = inr tt /\
  this (snd r) = this w /\
  next_function (plat (snd r)) = (n + 4)%nat /\
  listeners_of (c (GENERAL_STATUS K)) (plat (snd r)) =
    listeners_of (c (GENERAL_STATUS K)) (plat w)
    ++ [{| fn_id := n; fn_code := OnGeneralStatus |}] /\
  listeners_of (c (ADDITIONAL_STATUS K)) (plat (snd r)) =
    listeners_of (c (ADDITIONAL_STATUS K)) (plat w)
    ++ [{| fn_id := n + 1; fn_code := OnAdditionalStatus |}] /\
  listeners_of (c (STROKE_DATA K)) (plat (snd r)) =
    listeners_of (c (STROKE_DATA K)) (plat w)
    ++ [{| fn_id := n + 2; fn_code := OnStrokeData |}] /\
  listeners_of (c (SPLIT_INTERVAL_DATA K)) (plat (snd r)) =
    listeners_of (c (SPLIT_INTERVAL_DATA K)) (plat w)
    ++ [{| fn_id := n + 3; fn_code := OnSplitData |}] /\
  (forall c', (forall u, u ∈ rowing_streams K -> c' <> c u) ->
              listeners_of c' (plat (snd r)) = listeners_of c' (plat w)) /\
  trace (snd r) =
    trace w ++
    concat (List.map (fun u => [Issued (GetCharacteristic service u);
                                Issued (StartNotifications (c u))])
                     (rowing_streams K)).
Proof.
  intros n c Hsvc Hnd Hok Hfresh r.
  unfold rowing_streams in *.
  destruct (Hok (GENERAL_STATUS K)) as [Hg1 Hs1];
    [apply list_elem_of_In; cbn; tauto |].
  destruct (Hok (ADDITIONAL_STATUS K)) as [Hg2 Hs2];
    [apply list_elem_of_In; cbn; tauto |].
  destruct (Hok (STROKE_DATA K)) as [Hg3 Hs3];
    [apply list_elem_of_In; cbn; tauto |].
  destruct (Hok (SPLIT_INTERVAL_DATA K)) as [Hg4 Hs4];
    [apply list_elem_of_In; cbn; tauto |].
  apply NoDup_cons in Hnd as [H1 Hnd]. apply NoDup_cons in Hnd as [H2 Hnd].
  apply NoDup_cons in Hnd as [H3 _].
  rewrite list_elem_of_In in H1, H2, H3. cbn [In] in H1, H2, H3.
  assert (D12 : c (GENERAL_STATUS K) <> c (ADDITIONAL_STATUS K))
    by (intros [= E]; intuition congruence).
  assert (D13 : c (GENERAL_STATUS K) <> c (STROKE_DATA K))
    by (intros [= E]; intuition congruence).
  assert (D14 : c (GENERAL_STATUS K) <> c (SPLIT_INTERVAL_DATA K))
    by (intros [= E]; intuition congruence).
  assert (D23 : c (ADDITIONAL_STATUS K) <> c (STROKE_DATA K))
    by (intros [= E]; intuition congruence).
  assert (D24 : c (ADDITIONAL_STATUS K) <> c (SPLIT_INTERVAL_DATA K))
    by (intros [= E]; intuition congruence).
  assert (D34 : c (STROKE_DATA K) <> c (SPLIT_INTERVAL_DATA K))
    by (intros [= E]; intuition congruence).
  set (w1 := stream_started (c (GENERAL_STATUS K)) OnGeneralStatus w).
  set (w2 := stream_started (c (ADDITIONAL_STATUS K)) OnAdditionalStatus w1).
  set (w3 := stream_started (c (STROKE_DATA K)) OnStrokeData w2).
  set (w4 := stream_started (c (SPLIT_INTERVAL_DATA K)) OnSplitData w3).
  assert (E : r = (inr tt, w4)).
  { subst r. unfold startRowingDataNotifications. apply try_catch_ok.
    rewrite (mbind_ok _ _ w tt w1)
      by (apply start_stream_ok; assumption).
    rewrite (mbind_ok _ _ w1 tt w2)
      by (apply start_stream_ok; assumption).
    rewrite (mbind_ok _ _ w2 tt w3)
      by (apply start_stream_ok; assumption).
    apply start_stream_ok; assumption. }
  rewrite E. cbn [fst snd]. clear E r.
  split; [reflexivity |]. split; [reflexivity |].
  split; [subst w4 w3 w2 w1; rewrite !started_next; fold n; lia |].
  split.
  { subst w4 w3 w2. rewrite !started_other by congruence.
    subst w1. rewrite started_same. apply register_fresh.
    apply fresh_ids_above; [exact Hfresh | lia]. }
  split.
  { subst w4 w3. rewrite !started_other by congruence.
    subst w2. rewrite started_same.
    subst w1. rewrite started_next, started_other by congruence.
    replace (n + 1)%nat with (S n) by lia.
    apply register_fresh. apply fresh_ids_above; [exact Hfresh | lia]. }
  split.
  { subst w4. rewrite !started_other by congruence.
    subst w3. rewrite started_same.
    subst w2 w1. rewrite !started_next, !started_other by congruence.
    replace (n + 2)%nat with (S (S n)) by lia.
    apply register_fresh. apply fresh_ids_above; [exact Hfresh | lia]. }
  split.
  { subst w4. rewrite started_same.
    subst w3 w2 w1. rewrite !started_next, !started_other by congruence.
    replace (n + 3)%nat with (S (S (S n))) by lia.
    apply register_fresh. apply fresh_ids_above; [exact Hfresh | lia]. }
  split.
  { intros c' Hc'. subst w4 w3 w2 w1.
    rewrite !started_other; [reflexivity | ..];
      intros E; symmetry in E; revert E; apply Hc';
      apply list_elem_of_In; cbn; tauto. }
  subst w4 w3 w2 w1. unfold stream_started. cbn [trace List.map concat fst snd c].
  rewrite <- !app_assoc. reflexivity.
Qed.

(** The theorem in the connected sample session. *)
Lemma startRowingDataNotifications_adds_one_listener_each_witness :
  listeners_of ("rowing", "stroke-data")
    (plat (snd (startRowingDataNotifications sample_constants resolves
                  connected_session))) =
  listeners_of ("rowing", "stroke-data") (plat connected_session)
  ++ [{| fn_id := 2; fn_code := OnStrokeData |}].
Proof.
  apply (startRowingDataNotifications_adds_one_listener_each sample_constants
           resolves connected_session "rowing").
  - reflexivity.
  - apply (bool_decide_unpack _). vm_compute. exact I.
  - intros u _. split; reflexivity.
  - intros c l Hin. vm_compute in Hin. inversion Hin.
Defined.

Lemma stop_streams_eq o us w :
  stop_streams o us w =
    (inr tt,
     logged (concat (List.map (stop_requests o (rowing (services (this w))))
                              us)) w).
Proof.
  revert w. induction us as [| u us IH]; intros w.
  - cbn. rewrite logged_nil. reflexivity.
  - cbn [stop_streams List.map concat].
    assert (Hstep :
      try_catch
        (let! char := getCharacteristic o rowing u in
         request o (StopNotifications char))
        (fun _ => mret tt) w =
      (inr tt, logged (stop_requests o (rowing (services (this w))) u) w)).
    { unfold try_catch, mbind. rewrite getCharacteristic_eq. unfold stop_requests.
      destruct (rowing (services (this w))) as [svc |].
      - destruct (o (GetCharacteristic svc u)).
        + rewrite request_eq.
          destruct (o (StopNotifications (svc, u)));
            unfold mret; rewrite logged_logged; reflexivity.
        + reflexivity.
      - unfold mret. rewrite logged_nil. reflexivity. }
    rewrite (mbind_ok _ _ _ _ _ Hstep), IH, logged_logged. reflexivity.
Qed.

(** X13.  [stopRowingDataNotifications] never raises and removes no
    listener.  Whatever the platform answers, and even without a rowing
    service, the call returns; for each of the four streams it asks for the
    characteristic and, if it got it, asks to stop its notifications; the
    device object and the registered listeners are exactly as before, so a
    notification the platform still delivers is still processed as before the
    call. *)
Theorem stopRowingDataNotifications_never_fails K o w :
  let r := stopRowingDataNotifications K o w in
  r = (inr tt,
       logged (concat (List.map
                         (stop_requests o (rowing (services (this w))))
                         (rowing_streams K))) w) /\
  this (snd r) = this w /\
  plat (snd r) = plat w /\
  forall c value now,
    effects_of (characteristicvaluechanged c value now) (snd r) =
    effects_of (characteristicvaluechanged c value now) w.
Proof.
  intros r.
  assert (E : r = (inr tt,
       logged (concat (List.map
                         (stop_requests o (rowing (services (this w))))
                         (rowing_streams K))) w)).
  { subst r. unfold stopRowingDataNotifications. apply try_catch_ok.
    apply stop_streams_eq. }
  rewrite E. cbn [snd].
  split; [reflexivity |]. split; [reflexivity |]. split; [reflexivity |].
  intros c value now. unfold effects_of.
  rewrite !characteristicvaluechanged_eq. cbn [snd logged trace this plat].
  rewrite !drop_app_length. reflexivity.
Qed.

(** ** The characteristic monitor *)

Lemma unsubscribe_rejected o sub w :
  activeCharacteristicSubscription (this w) = Some sub ->
  o (StopNotifications (sub_characteristic sub)) = false ->
  unsubscribeFromCharacteristic o w =
    (inl (Rejected (StopNotifications (sub_characteristic sub))),
     {| this := this w;
        plat := {| listeners :=
                     <[sub_characteristic sub :=
                         filter (fun l' => l' <> sub_handler sub)
                                (listeners_of (sub_characteristic sub) (plat w))]>
                       (listeners (plat w));
                   next_function := next_function (plat w) |};
        trace := trace w ++
                 [Issued (StopNotifications (sub_characteristic sub));
                  ConsoleError "Error unsubscribing from characteristic:"
                    (Rejected (StopNotifications (sub_characteristic sub)))] |}).
Proof.
  intros H Ho. unfold unsubscribeFromCharacteristic.
  rewrite mbind_get_this, H.
  unfold try_catch, mbind at 1, removeEventListener.
  unfold mbind at 1. rewrite request_eq, Ho. rewrite rethrow_eq.
  unfold logged. cbn. rewrite <- app_assoc. reflexivity.
Qed.

Lemma removed_not_registered (ls : list listener) h :
  h ∉ filter (fun l' => l' <> h) ls.
Proof. intros Hin. apply list_elem_of_filter in Hin as [Hne _]. congruence. Qed.

Lemma set_active_None_id d v :
  activeCharacteristicSubscription d = None ->
  set_activeCharacteristicSubscription None
    (set_activeCharacteristicSubscription v d) = d.
Proof. destruct d. cbn. intros ->. reflexivity. Qed.

(** X14.  Subscribing and then unsubscribing restores the session.  From a
    state without an active monitor subscription, a successful
    [subscribeToCharacteristic] followed by a successful
    [unsubscribeFromCharacteristic] leaves the device object and the listeners
    of every characteristic exactly as they were; only the start and the stop
    request remain in the trace, and any notification is processed as before
    the two calls. *)
Theorem subscribe_unsubscribe_restores o1 o2 u info w :
  let c := ci_characteristic info in
  activeCharacteristicSubscription (this w) = None ->
  List.find (fun i => String.eqb (ci_uuid i) u)
            (notifyCapableCharacteristics (this w)) = Some info ->
  Forall (fun l => (fn_id l < next_function (plat w))%nat)
         (listeners_of c (plat w)) ->
  o1 (StartNotifications c) = true ->
  o2 (StopNotifications c) = true ->
  let w1 := snd (subscribeToCharacteristic o1 u w) in
  let r2 := unsubscribeFromCharacteristic o2 w1 in
  fst r2 = inr tt /\
  this (snd r2) = this w /\
  (forall c', listeners_of c' (plat (snd r2)) = listeners_of c' (plat w)) /\
  trace (snd r2) =
    trace w ++ [Issued (StartNotifications c); Issued (StopNotifications c)] /\
  forall c' value now,
    effects_of (characteristicvaluechanged c' value now) (snd r2) =
    effects_of (characteristicvaluechanged c' value now) w.
Proof.
  intros c Hidle Hfind Hfresh Ho1 Ho2 w1 r2.
  pose (h := {| fn_id := next_function (plat w);
                fn_code := OnCharacteristic u |}).
  assert (Hh : h ∉ listeners_of c (plat w))
    by (apply fresh_not_registered, Hfresh).
  pose proof (subscribe_idle o1 u info w Hidle Hfind Ho1) as E1.
  cbv zeta in E1. fold c h in E1.
  rewrite (bool_decide_eq_false_2 _ Hh) in E1.
  assert (E2 : r2 =
    (inr tt,
     {| this := this w;
        plat := {| listeners :=
                     <[c := listeners_of c (plat w)]>
                       (<[c := listeners_of c (plat w) ++ [h]]>
                          (listeners (plat w)));
                   next_function := S (next_function (plat w)) |};
        trace := (trace w ++ [Issued (StartNotifications c)])
                 ++ [Issued (StopNotifications c)] |})).
  { subst r2 w1. rewrite E1. cbn [snd].
    erewrite unsubscribe_active; [| reflexivity | exact Ho2].
    cbn [sub_characteristic sub_handler this plat listeners next_function
         trace].
    rewrite listeners_of_insert, (remove_last_registered _ _ Hh).
    rewrite (set_active_None_id _ _ Hidle). reflexivity. }
  assert (Hls : forall c',
    listeners_of c' (plat (snd r2)) = listeners_of c' (plat w)).
  { intros c'. rewrite E2. cbn [snd plat].
    destruct (decide (c = c')) as [<- | Hne].
    - apply listeners_of_insert.
    - rewrite (listeners_of_insert_ne c c' _ _ _ 0 Hne).
      rewrite (listeners_of_insert_ne c c' _ _ _ (next_function (plat w)) Hne).
      destruct (plat w). reflexivity. }
  split; [rewrite E2; reflexivity |].
  split; [rewrite E2; reflexivity |].
  split; [exact Hls |].
  split; [rewrite E2; cbn [snd trace]; rewrite <- app_assoc; reflexivity |].
  intros c' value now. unfold effects_of.
  rewrite !characteristicvaluechanged_eq. cbn [snd logged trace].
  rewrite !drop_app_length, Hls.
  f_equal. apply List.map_ext. intros l. apply listener_effects_on.
  rewrite E2. reflexivity.
Qed.

(** The theorem in the sample session with the rowing streams started. *)
Lemma subscribe_unsubscribe_restores_witness :
  listeners_of ("rowing", "stroke-data")
    (plat (snd (unsubscribeFromCharacteristic resolves
                  (snd (subscribeToCharacteristic resolves "stroke-data"
                          streaming_session))))) =
  listeners_of ("rowing", "stroke-data") (plat streaming_session).
Proof.
  apply (subscribe_unsubscribe_restores resolves resolves "stroke-data"
           {| ci_uuid := "stroke-data"; ci_serviceUuid := "rowing";
              ci_characteristic := ("rowing", "stroke-data") |}
           streaming_session).
  - reflexivity.
  - reflexivity.
  - vm_compute. repeat constructor.
  - reflexivity.
  - reflexivity.
Defined.

Lemma subscribe_unsubscribe_fails o u sub w e w' :
  activeCharacteristicSubscription (this w) = Some sub ->
  unsubscribeFromCharacteristic o w = (inl e, w') ->
  subscribeToCharacteristic o u w =
    (inl e,
     logged [ConsoleError "Error subscribing to characteristic:" e] w').
Proof.
  intros H Hun. unfold subscribeToCharacteristic, try_catch.
  rewrite mbind_get_this, H.
  change (bool_decide (is_Some (Some sub))) with true. cbn [when].
  unfold mbind at 1. rewrite Hun. rewrite rethrow_eq. reflexivity.
Qed.

(** X15.  A failed unsubscribe leaves a stale subscription behind.  When
    the stop request rejects, [unsubscribeFromCharacteristic] re-raises the
    rejection after it has already removed the listener, and
    [activeCharacteristicSubscription] still holds the subscription.  Every
    later [subscribeToCharacteristic], for any UUID, first retries the
    unsubscribe: as long as the stop request rejects it raises the same
    rejection and never asks the platform to start notifications. *)
Theorem unsubscribe_failure_leaves_stale_subscription o sub w :
  let c := sub_characteristic sub in
  let stop := StopNotifications c in
  activeCharacteristicSubscription (this w) = Some sub ->
  o stop = false ->
  let r := unsubscribeFromCharacteristic o w in
  fst r = inl (Rejected stop) /\
  activeCharacteristicSubscription (this (snd r)) = Some sub /\
  (sub_handler sub ∉ listeners_of c (plat (snd r))) /\
  trace (snd r) =
    trace w ++ [Issued stop;
                ConsoleError "Error unsubscribing from characteristic:"
                  (Rejected stop)] /\
  forall o' u,
    o' stop = false ->
    fst (subscribeToCharacteristic o' u (snd r)) = inl (Rejected stop) /\
    effects_of (subscribeToCharacteristic o' u) (snd r) =
      [Issued stop;
       ConsoleError "Error unsubscribing from characteristic:" (Rejected stop);
       ConsoleError "Error subscribing to characteristic:" (Rejected stop)].
Proof.
  intros c stop Hact Ho r. subst r.
  rewrite (unsubscribe_rejected o sub w Hact Ho). cbn [fst snd].
  split; [reflexivity |]. split; [exact Hact |].
  split; [cbn [plat]; rewrite listeners_of_insert;
          apply removed_not_registered |].
  split; [reflexivity |].
  intros o' u Ho'.
  match goal with
  | |- context [subscribeToCharacteristic o' u ?w1] => set (w1' := w1)
  end.
  pose proof (unsubscribe_rejected o' sub w1' Hact Ho') as Hun.
  rewrite (subscribe_unsubscribe_fails o' u sub w1' _ _ Hact Hun).
  split; [reflexivity |].
  unfold effects_of.
  rewrite (subscribe_unsubscribe_fails o' u sub w1' _ _ Hact Hun).
  cbn [snd logged trace]. rewrite <- app_assoc, drop_app_length. reflexivity.
Qed.

(** The theorem in the sample session, monitor subscribed to stroke data,
    when the platform rejects the stop request. *)
Lemma unsubscribe_failure_leaves_stale_subscription_witness :
  let w := run (subscribeToCharacteristic resolves "stroke-data")
               streaming_session in
  let o := rejects (StopNotifications ("rowing", "stroke-data")) in
  fst (unsubscribeFromCharacteristic o w) =
    inl (Rejected (StopNotifications ("rowing", "stroke-data"))).
Proof.
  apply (unsubscribe_failure_leaves_stale_subscription
           (rejects (StopNotifications ("rowing", "stroke-data")))
           {| sub_uuid := "stroke-data";
              sub_characteristic := ("rowing", "stroke-data");
              sub_handler := {| fn_id := 4;
                                fn_code := OnCharacteristic "stroke-data" |} |}
           (run (subscribeToCharacteristic resolves "stroke-data")
                streaming_session));
    reflexivity.
Defined.

(** X16.  Subscribing to a UUID that was not discovered fails with the
    not-found error, but only after the active subscription has been torn
    down: with a subscription active and the stop request resolving, the call
    raises, the old listener is removed and no subscription is active
    afterwards.  Without an active subscription the call raises and changes
    nothing but the log. *)
Theorem subscribe_unknown_uuid_drops_active o u w :
  List.find (fun i => String.eqb (ci_uuid i) u)
            (notifyCapableCharacteristics (this w)) = None ->
  let r := subscribeToCharacteristic o u w in
  let e := Error (CharacteristicNotFound u) in
  let log := ConsoleError "Error subscribing to characteristic:" e in
  (activeCharacteristicSubscription (this w) = None ->
     r = (inl e, logged [log] w)) /\
  (forall sub,
      activeCharacteristicSubscription (this w) = Some sub ->
      o (StopNotifications (sub_characteristic sub)) = true ->
      fst r = inl e /\
      activeCharacteristicSubscription (this (snd r)) = None /\
      (sub_handler sub ∉ listeners_of (sub_characteristic sub) (plat (snd r)))
      /\
      trace (snd r) =
        trace w ++ [Issued (StopNotifications (sub_characteristic sub)); log]).
Proof.
  intros Hfind r e log.
  assert (Hidle : forall w0,
    activeCharacteristicSubscription (this w0) = None ->
    List.find (fun i => String.eqb (ci_uuid i) u)
              (notifyCapableCharacteristics (this w0)) = None ->
    subscribeToCharacteristic o u w0 = (inl e, logged [log] w0)).
  { intros w0 Hact Hf. unfold subscribeToCharacteristic, try_catch.
    rewrite mbind_get_this, Hact.
    change (bool_decide (is_Some (@None subscription))) with false.
    cbn [when]. rewrite (mbind_ok (mret tt) _ w0 tt w0 eq_refl).
    rewrite mbind_get_this, Hf. reflexivity. }
  split.
  - intros Hact. apply Hidle; assumption.
  - intros sub Hact Hstop. subst r.
    rewrite (subscribe_active o u sub w Hact Hstop).
    rewrite (unsubscribe_active o sub w Hact Hstop). cbn [snd].
    rewrite Hidle.
    + cbn [fst snd logged this plat trace].
      split; [reflexivity |].
      split; [destruct (this w); reflexivity |].
      split; [rewrite listeners_of_insert; apply removed_not_registered |].
      rewrite <- app_assoc. reflexivity.
    + destruct (this w); reflexivity.
    + cbn [this]. destruct (this w); exact Hfind.
Qed.

(** The theorem in the sample session, monitor subscribed to stroke data, for
    a UUID that is not among the discovered ones. *)
Lemma subscribe_unknown_uuid_drops_active_witness :
  let w := run (subscribeToCharacteristic resolves "stroke-data")
               streaming_session in
  activeCharacteristicSubscription
    (this (snd (subscribeToCharacteristic resolves "no-such-uuid" w))) = None.
Proof.
  apply (proj2 (subscribe_unknown_uuid_drops_active resolves "no-such-uuid"
           (run (subscribeToCharacteristic resolves "stroke-data")
                streaming_session) eq_refl)
           {| sub_uuid := "stroke-data";
              sub_characteristic := ("rowing", "stroke-data");
              sub_handler := {| fn_id := 4;
                                fn_code := OnCharacteristic "stroke-data" |} |});
    reflexivity.
Defined.

(** X17.  Moving the monitor to another characteristic.  With a subscription
    active on one characteristic, [subscribeToCharacteristic] for a
    discovered UUID of a different characteristic, both requests resolving,
    stops the old notifications, then starts the new ones: the old handler is
    removed from the old characteristic and nothing else is removed there,
    one new function is appended on the new characteristic, the new
    subscription is recorded, and exactly these two requests are issued, the
    stop first. *)
Theorem subscribe_switches_monitor o u sub info w :
  let c1 := sub_characteristic sub in
  let c2 := ci_characteristic info in
  let h2 := {| fn_id := next_function (plat w);
               fn_code := OnCharacteristic u |} in
  activeCharacteristicSubscription (this w) = Some sub ->
  List.find (fun i => String.eqb (ci_uuid i) u)
            (notifyCapableCharacteristics (this w)) = Some info ->
  c1 <> c2 ->
  o (StopNotifications c1) = true ->
  o (StartNotifications c2) = true ->
  Forall (fun l => (fn_id l < next_function (plat w))%nat)
         (listeners_of c2 (plat w)) ->
  let r := subscribeToCharacteristic o u w in
  fst r = inr true /\
  activeCharacteristicSubscription (this (snd r)) =
    Some {| sub_uuid := u; sub_characteristic := c2; sub_handler := h2 |} /\
  listeners_of c1 (plat (snd r)) =
    filter (fun l => l <> sub_handler sub) (listeners_of c1 (plat w)) /\
  listeners_of c2 (plat (snd r)) = listeners_of c2 (plat w) ++ [h2] /\
  effects_of (subscribeToCharacteristic o u) w =
    [Issued (StopNotifications c1); Issued (StartNotifications c2)].
Proof.
  intros c1 c2 h2 Hact Hfind Hne Hstop Hstart Hfresh r.
  subst r. unfold effects_of.
  rewrite (subscribe_active o u sub w Hact Hstop).
  rewrite (unsubscribe_active o sub w Hact Hstop). cbn [snd].
  match goal with
  | |- context [subscribeToCharacteristic o u ?w0] => set (w1 := w0)
  end.
  assert (H1 : activeCharacteristicSubscription (this w1) = None)
    by (subst w1; destruct (this w); reflexivity).
  assert (H2 : List.find (fun i => String.eqb (ci_uuid i) u)
                 (notifyCapableCharacteristics (this w1)) = Some info)
    by (subst w1; cbn [this]; destruct (this w); exact Hfind).
  pose proof (subscribe_idle o u info w1 H1 H2 Hstart) as E.
  cbv zeta in E. rewrite E. clear E. cbn [fst snd this plat trace].
  assert (Hc2 : listeners_of c2 (plat w1) = listeners_of c2 (plat w))
    by (subst w1; cbn [plat]; destruct (plat w);
        apply listeners_of_insert_ne; exact Hne).
  split; [reflexivity |].
  split; [subst w1; destruct (this w); reflexivity |].
  split.
  { rewrite (listeners_of_insert_ne c2 c1 _ _ _ (next_function (plat w1)))
      by (intros Heq; apply Hne; symmetry; exact Heq).
    subst w1. cbn [plat listeners next_function].
    apply listeners_of_insert. }
  split.
  { rewrite listeners_of_insert. fold c2. rewrite Hc2.
    change (next_function (plat w1)) with (next_function (plat w)).
    fold h2. fold (register h2 (listeners_of c2 (plat w))).
    apply register_fresh, fresh_not_registered, Hfresh. }
  subst w1. cbn [trace]. rewrite <- app_assoc, drop_app_length. reflexivity.
Qed.

(** The theorem in the sample session: the monitor moves from the stroke
    data to the general status. *)
Lemma subscribe_switches_monitor_witness :
  let w := run (subscribeToCharacteristic resolves "stroke-data")
               streaming_session in
  effects_of (subscribeToCharacteristic resolves "general-status") w =
    [Issued (StopNotifications ("rowing", "stroke-data"));
     Issued (StartNotifications ("rowing", "general-status"))].
Proof.
  apply (subscribe_switches_monitor resolves "general-status"
           {| sub_uuid := "stroke-data";
              sub_characteristic := ("rowing", "stroke-data");
              sub_handler := {| fn_id := 4;
                                fn_code := OnCharacteristic "stroke-data" |} |}
           {| ci_uuid := "general-status"; ci_serviceUuid := "rowing";
              ci_characteristic := ("rowing", "general-status") |}
           (run (subscribeToCharacteristic resolves "stroke-data")
                streaming_session));
    [reflexivity | reflexivity | discriminate | reflexivity | reflexivity
    | vm_compute; repeat constructor].
Defined.

(** ** Connecting *)

Ltac by_outcome o :=
  repeat match goal with
         | |- context [o ?c] => destruct (o c) eqn:?; cbn
         end.

(** X18.  [connect] succeeds exactly when the connection request and the
    three service requests all resolve, and only then sets [isConnected].
    It does not roll back on failure: once the connection request has
    resolved the server stays set although the call raised, and the services
    obtained before the failing request stay recorded.  A failure is logged
    last under the connect label (a failing service request also under the
    label of [getServices], before it), and the listeners are never
    touched. *)
Theorem connect_outcome K o w :
  let r := connect K o w in
  let info := GetPrimaryService (PM5_SERVICES_INFORMATION K) in
  let ctrl := GetPrimaryService (PM5_SERVICES_CONTROL K) in
  let row := GetPrimaryService (PM5_SERVICES_ROWING K) in
  let ok := o GattConnect && o info && o ctrl && o row in
  (fst r = inr tt <-> ok = true) /\
  isConnected (this (snd r)) = (ok || isConnected (this w)) /\
  server (this (snd r)) = (o GattConnect || server (this w)) /\
  information (services (this (snd r))) =
    (if o GattConnect && o info then Some (PM5_SERVICES_INFORMATION K)
     else information (services (this w))) /\
  control (services (this (snd r))) =
    (if o GattConnect && o info && o ctrl then Some (PM5_SERVICES_CONTROL K)
     else control (services (this w))) /\
  rowing (services (this (snd r))) =
    (if ok then Some (PM5_SERVICES_ROWING K)
     else rowing (services (this w))) /\
  plat (snd r) = plat w /\
  (ok = false ->
   exists e, fst r = inl e /\
             last (trace (snd r)) =
               Some (ConsoleError "Error connecting to PM5:" e) /\
             (o GattConnect = true ->
              ConsoleError "Error getting services:" e ∈ trace (snd r))).
Proof.
  intros r info ctrl row ok. subst r info ctrl row ok.
  unfold connect, getServices, readDeviceInformation, try_catch, mbind,
    request, modify_this, emit, get_this, console_error, mret, mthrow.
  cbn. by_outcome o;
    repeat match goal with |- _ /\ _ => split end;
    try reflexivity; try (split; intros; congruence); try discriminate;
    intros _; eexists; (split; [reflexivity |]);
    (split; [rewrite last_snoc; reflexivity |]);
    intros; try discriminate;
    apply list_elem_of_In; rewrite !in_app_iff; cbn; tauto.
Qed.

(** ** The control response stream *)

Lemma effects_of_notification c value now w :
  effects_of (characteristicvaluechanged c value now) w =
    concat (List.map (fun l => listener_effects (this w) l value now)
                     (listeners_of c (plat w))).
Proof.
  unfold effects_of. rewrite characteristicvaluechanged_eq.
  cbn [snd logged trace]. apply drop_app_length.
Qed.

Lemma listener_effects_raw d n value now :
  listener_effects d {| fn_id := n; fn_code := OnControlRx |} value now =
    if onControlRxData (on d)
    then [CallOnControlRxData now (bytes_of (buffer value))] else [].
Proof.
  destruct d as [? ? ? ? [c1 c2 c3 c4 c5 c6] ? ?]. unfold listener_effects.
  run_handler. cbn [on onControlRxData]. destruct c5; reflexivity.
Qed.

Lemma startControlRxNotifications_ok K o svc w :
  control (services (this w)) = Some svc ->
  o (GetCharacteristic svc (RECEIVE K)) = true ->
  o (StartNotifications (svc, RECEIVE K)) = true ->
  startControlRxNotifications K o w =
    (inr true, stream_started (svc, RECEIVE K) OnControlRx w).
Proof.
  intros Hsvc Hget Hstart.
  unfold startControlRxNotifications, try_catch, mbind.
  rewrite getCharacteristic_eq, Hsvc, Hget, request_eq, Hstart.
  unfold stream_started, register, new_function, addEventListener, mret,
    logged.
  cbn. rewrite <- app_assoc. reflexivity.
Qed.

Lemma stopControlRxNotifications_eq K o svc w :
  control (services (this w)) = Some svc ->
  let get := GetCharacteristic svc (RECEIVE K) in
  let stop := StopNotifications (svc, RECEIVE K) in
  let label := "Error stopping RX control notifications:" in
  stopControlRxNotifications K o w =
    if o get then
      if o stop then (inr true, logged [Issued get; Issued stop] w)
      else (inl (Rejected stop),
            logged [Issued get; Issued stop;
                    ConsoleError label (Rejected stop)] w)
    else (inl (Rejected get),
          logged [Issued get; ConsoleError label (Rejected get)] w).
Proof.
  intros Hsvc get stop label. subst get stop label.
  unfold stopControlRxNotifications, try_catch, mbind.
  rewrite getCharacteristic_eq, Hsvc.
  destruct (o (GetCharacteristic svc (RECEIVE K)));
    [rewrite request_eq; destruct (o (StopNotifications (svc, RECEIVE K))) |];
    unfold logged; cbn; rewrite <- ?app_assoc; reflexivity.
Qed.

(** X19.  Stopping the control response stream does not detach its
    listener.  [startControlRxNotifications], when its two requests resolve,
    registers one new function on the receive characteristic.
    [stopControlRxNotifications] then asks for the characteristic and, if it
    got it, asks the platform to stop its notifications; a rejection is
    logged and raised again; whatever the answers, the device object and the
    listeners of every characteristic are left as they are.  A notification
    the platform still delivers on the receive characteristic after the stop
    therefore still reaches [onControlRxData], with the bytes of the whole
    buffer the value is a view of. *)
Theorem control_rx_listener_survives_stop K o1 o2 svc w :
  let c := (svc, RECEIVE K) in
  let h := {| fn_id := next_function (plat w); fn_code := OnControlRx |} in
  let get := GetCharacteristic svc (RECEIVE K) in
  let stop := StopNotifications c in
  let label := "Error stopping RX control notifications:" in
  control (services (this w)) = Some svc ->
  o1 get = true ->
  o1 (StartNotifications c) = true ->
  Forall (fun l => (fn_id l < next_function (plat w))%nat)
         (listeners_of c (plat w)) ->
  let started := startControlRxNotifications K o1 w in
  let stopped := stopControlRxNotifications K o2 (snd started) in
  fst started = inr true /\
  (fst stopped = inr true <-> o2 get && o2 stop = true) /\
  effects_of (stopControlRxNotifications K o2) (snd started) =
    Issued get ::
    (if o2 get
     then Issued stop ::
          (if o2 stop then [] else [ConsoleError label (Rejected stop)])
     else [ConsoleError label (Rejected get)]) /\
  this (snd stopped) = this w /\
  plat (snd stopped) = plat (snd started) /\
  listeners_of c (plat (snd stopped)) = listeners_of c (plat w) ++ [h] /\
  (forall c', c' <> c ->
     listeners_of c' (plat (snd stopped)) = listeners_of c' (plat w)) /\
  forall value now,
    effects_of (characteristicvaluechanged c value now) (snd stopped) =
    effects_of (characteristicvaluechanged c value now) w ++
    (if onControlRxData (on (this w))
     then [CallOnControlRxData now (bytes_of (buffer value))] else []).
Proof.
  intros c h get stop label Hsvc Hget Hstart Hfresh started stopped.
  subst started stopped get stop label. unfold effects_of at 1.
  rewrite (startControlRxNotifications_ok K o1 svc w Hsvc Hget Hstart).
  cbn [fst snd].
  set (w1 := stream_started (svc, RECEIVE K) OnControlRx w).
  assert (Hls : listeners_of c (plat w1) = listeners_of c (plat w) ++ [h]).
  { subst c w1. rewrite started_same.
    apply register_fresh, fresh_not_registered, Hfresh. }
  assert (Hother : forall c', c' <> c ->
            listeners_of c' (plat w1) = listeners_of c' (plat w)).
  { intros c' Hne. subst w1. apply started_other.
    intros Heq. apply Hne. symmetry. exact Heq. }
  rewrite (stopControlRxNotifications_eq K o2 svc w1 Hsvc). cbv zeta.
  assert (Hrx : forall out value now,
            effects_of (characteristicvaluechanged c value now)
                       (logged out w1) =
            effects_of (characteristicvaluechanged c value now) w ++
            (if onControlRxData (on (this w))
             then [CallOnControlRxData now (bytes_of (buffer value))]
             else [])).
  { intros out value now. rewrite !effects_of_notification.
    cbn [logged plat this]. rewrite Hls. subst w1. rewrite started_this.
    rewrite map_app, concat_app. cbn [List.map concat].
    rewrite app_nil_r. subst h. rewrite listener_effects_raw. reflexivity. }
  subst c.
  destruct (o2 (GetCharacteristic svc (RECEIVE K)));
    [destruct (o2 (StopNotifications (svc, RECEIVE K))) |];
    cbn [fst snd andb logged trace this plat];
    rewrite ?drop_app_length;
    (split; [reflexivity |]);
    (split; [split; intros; first [reflexivity | discriminate] |]);
    (split; [reflexivity |]);
    (split; [reflexivity |]);
    (split; [reflexivity |]);
    (split; [exact Hls |]);
    (split; [exact Hother |]);
    intros value now; apply (Hrx _ value now).
Qed.

(** The theorem in the sample session, the stop request rejected. *)
Lemma control_rx_listener_survives_stop_witness :
  let c := ("control", "receive") in
  let started :=
    startControlRxNotifications sample_constants resolves connected_session in
  let stopped :=
    stopControlRxNotifications sample_constants
      (rejects (StopNotifications c)) (snd started) in
  listeners_of c (plat (snd stopped)) =
    [{| fn_id := 0; fn_code := OnControlRx |}].
Proof.
  apply (control_rx_listener_survives_stop sample_constants resolves
           (rejects (StopNotifications ("control", "receive")))
           "control" connected_session);
    first [reflexivity | constructor].
Defined.

(** ** Discovery of the characteristics to monitor *)

Lemma collect_notify_spec o gatt w :
  exists l out,
    collect_notify o gatt w = (inr l, logged out w) /\
    forall info,
      In info l <->
      exists s cs,
        In (s, cs) gatt /\ o (GetCharacteristics s) = true /\
        In (ci_uuid info, true) cs /\
        ci_serviceUuid info = s /\ ci_characteristic info = (s, ci_uuid info).
Proof.
  revert w. induction gatt as [| [s cs] rest IH]; intros w.
  - exists [], []. split; [cbn; rewrite logged_nil; reflexivity |].
    intros info. split; [intros [] | intros (? & ? & [] & _)].
  - cbn [collect_notify]. unfold try_catch, mbind at 1 2.
    rewrite request_eq.
    destruct (o (GetCharacteristics s)) eqn:Ho; unfold mret at 1;
      destruct (IH (logged [Issued (GetCharacteristics s)] w))
        as (l & out & E & Hl);
      unfold mbind; rewrite E; unfold mret; rewrite logged_logged;
      eexists _, _; (split; [reflexivity |]); intros info;
      cbn [app]; rewrite ?in_app_iff, Hl, ?in_map_iff; cbn [In].
    + split.
      * intros [(c & <- & Hc) | (s' & cs' & Hin & H)].
        -- apply filter_In in Hc as [Hc Hn]. destruct c as [u n].
           cbn in Hn. subst n. exists s, cs. cbn. auto.
        -- exists s', cs'. cbn. tauto.
      * intros (s' & cs' & [Heq | Hin] & Ho' & Hu & Hs & Hc).
        -- inversion Heq; subst s' cs'. left.
           exists (ci_uuid info, true). split.
           ++ destruct info; cbn in *; congruence.
           ++ apply filter_In. auto.
        -- right. exists s', cs'. auto.
    + split.
      * intros (s' & cs' & Hin & H). exists s', cs'. cbn. tauto.
      * intros (s' & cs' & [Heq | Hin] & Ho' & H).
        -- inversion Heq; subst s' cs'. congruence.
        -- exists s', cs'. auto.
Qed.

(** X20.  Discovery fails only for a missing server (a TypeError) or a
    rejected service enumeration; it then leaves the earlier list in place.
    Otherwise it returns and stores the list it collected: a characteristic
    is in it exactly when the platform reports it as notify-capable in a
    service whose characteristic enumeration resolved, so a service whose
    enumeration is rejected is skipped without failing the call.  The
    listeners and the active subscription are never touched. *)
Theorem discoverNotifyCapableCharacteristics_outcome o gatt w :
  let r := discoverNotifyCapableCharacteristics o gatt w in
  plat (snd r) = plat w /\
  activeCharacteristicSubscription (this (snd r)) =
    activeCharacteristicSubscription (this w) /\
  match fst r with
  | inl e =>
      server (this w) && o GetPrimaryServices = false /\
      e = (if server (this w) then Rejected GetPrimaryServices
           else TypeError) /\
      this (snd r) = this w
  | inr l =>
      server (this w) && o GetPrimaryServices = true /\
      notifyCapableCharacteristics (this (snd r)) = l /\
      forall info,
        In info l <->
        exists s cs,
          In (s, cs) gatt /\ o (GetCharacteristics s) = true /\
          In (ci_uuid info, true) cs /\
          ci_serviceUuid info = s /\
          ci_characteristic info = (s, ci_uuid info)
  end.
Proof.
  intros r. subst r.
  unfold discoverNotifyCapableCharacteristics, try_catch.
  rewrite mbind_get_this.
  destruct (server (this w)) eqn:Hs.
  - unfold mbind, mret, mthrow, modify_this. rewrite request_eq.
    destruct (o GetPrimaryServices) eqn:Ho.
    + destruct (collect_notify_spec o gatt (logged [Issued GetPrimaryServices] w))
        as (l & out & E & Hl).
      rewrite E. cbn.
      repeat match goal with |- _ /\ _ => split end;
        try reflexivity; exact Hl.
    + cbn. repeat split.
  - cbn. repeat split.
Qed.

(** ** After a disconnection *)

(** X21.  Which methods still reach the platform after [handleDisconnected].
    The services and the server were dropped, so each method that goes
    through them stops with a TypeError before it issues a request, and logs
    it under its own label: the start of the rowing streams, the start and
    the stop of the control response stream, [sendControlBytes] (which still
    rejects an odd number of digits first) and the discovery.
    [stopRowingDataNotifications] swallows the four TypeErrors and returns
    normally without any effect.  The monitor is the exception: it works on
    the characteristic objects it has cached, so the first thing
    [unsubscribeFromCharacteristic] does with a subscription active, and
    [subscribeToCharacteristic] for a discovered UUID with none active, is
    to send its request to the platform. *)
Theorem operations_after_disconnect_fail_locally K o hex gatt w :
  let w' := snd (handleDisconnected w) in
  let fails {A} (c : M A) label e :=
    c w' = (inl e, logged [ConsoleError label e] w') in
  fails (startRowingDataNotifications K o)
        "Error starting notifications:" TypeError /\
  fails (startControlRxNotifications K o)
        "Error starting RX control notifications:" TypeError /\
  fails (stopControlRxNotifications K o)
        "Error stopping RX control notifications:" TypeError /\
  fails (sendControlBytes K o hex) "Error sending control bytes:"
        (if (length (cleanHex hex) mod 2 =? 0)%nat then TypeError
         else Error HexOddLength) /\
  fails (discoverNotifyCapableCharacteristics o gatt)
        "Error discovering notify-capable characteristics:" TypeError /\
  stopRowingDataNotifications K o w' = (inr tt, w') /\
  (forall sub,
      activeCharacteristicSubscription (this w) = Some sub ->
      head (effects_of (unsubscribeFromCharacteristic o) w') =
        Some (Issued (StopNotifications (sub_characteristic sub)))) /\
  (forall u info,
      activeCharacteristicSubscription (this w) = None ->
      List.find (fun c => String.eqb (ci_uuid c) u)
                (notifyCapableCharacteristics (this w)) = Some info ->
      head (effects_of (subscribeToCharacteristic o u) w') =
        Some (Issued (StartNotifications (ci_characteristic info)))).
Proof.
  intros w' fails. subst w' fails. rewrite handleDisconnected_eq. cbn [snd].
  repeat match goal with |- _ /\ _ => split end.
  - unfold startRowingDataNotifications, try_catch, mbind.
    rewrite start_stream_eq. reflexivity.
  - unfold startControlRxNotifications, try_catch, mbind.
    rewrite getCharacteristic_eq. reflexivity.
  - unfold stopControlRxNotifications, try_catch, mbind.
    rewrite getCharacteristic_eq. reflexivity.
  - unfold sendControlBytes, try_catch, mbind.
    destruct (length (cleanHex hex) mod 2 =? 0)%nat; [| reflexivity].
    unfold mret at 1. rewrite getCharacteristic_eq. reflexivity.
  - reflexivity.
  - unfold stopRowingDataNotifications. apply try_catch_ok.
    rewrite stop_streams_eq. cbn. rewrite logged_nil. reflexivity.
  - intros sub H. apply unsubscribe_first_request. exact H.
  - intros u info H Hf. apply subscribe_first_request; assumption.
Qed.

(** ** The CSAFE variant of the class *)

(** X22.  In the CSAFE variant the multiplexed stream is optional.  When the
    rowing service is known and the requests of the four mandatory streams
    resolve, [startRowingDataNotifications] returns normally whatever the
    platform answers for the multiplexed characteristic: a rejection there is
    neither raised nor logged as an error.  Five functions are created when
    both multiplexed requests resolve and four otherwise, and the listeners
    registered before the call all stay in place. *)
Theorem startRowingDataNotifications_csafe_multiplexed_optional K o svc w :
  let m := (svc, MULTIPLEXED_INFORMATION K) in
  rowing (services (this w)) = Some svc ->
  (forall u, In u (rowing_streams K) ->
             o (GetCharacteristic svc u) = true /\
             o (StartNotifications (svc, u)) = true) ->
  let r := startRowingDataNotifications_csafe K o w in
  fst r = inr tt /\
  keeps_listeners w (snd r) /\
  next_function (plat (snd r)) =
    (next_function (plat w) + 4 +
     if o (GetCharacteristic svc (MULTIPLEXED_INFORMATION K)) &&
        o (StartNotifications m)
     then 1 else 0)%nat /\
  Forall (fun e => exists c, e = Issued c)
         (effects_of (startRowingDataNotifications_csafe K o) w).
Proof.
  intros m Hsvc Hres r. subst m.
  assert (Hr : forall u, In u (rowing_streams K) ->
                 forall code w0, this w0 = this w ->
                   start_stream o u code w0 =
                     (inr tt, stream_started (svc, u) code w0)).
  { intros u Hu code w0 Hw0. destruct (Hres u Hu) as [Hg Hs].
    apply start_stream_ok; [rewrite Hw0; exact Hsvc | exact Hg | exact Hs]. }
  set (w1 := stream_started (svc, GENERAL_STATUS K) HandleGeneralStatusUpdate w).
  set (w2 := stream_started (svc, ADDITIONAL_STATUS K)
                            HandleAdditionalStatusUpdate w1).
  set (w3 := stream_started (svc, STROKE_DATA K) HandleStrokeDataUpdate w2).
  set (w4 := stream_started (svc, SPLIT_INTERVAL_DATA K)
                            HandleSplitDataUpdate w3).
  assert (E : startRowingDataNotifications_csafe K o w =
              try_catch
                (try_catch
                   (start_stream o (MULTIPLEXED_INFORMATION K)
                                 HandleMultiplexedDataUpdate)
                   (fun _ => mret tt))
                (fun error =>
                   console_error "Error starting rowing data notifications:"
                                 error ;;
                   mthrow error) w4).
  { unfold startRowingDataNotifications_csafe.
    rewrite (try_catch_step _ _ _ w tt w1)
      by (apply Hr; [cbn; tauto | reflexivity]).
    rewrite (try_catch_step _ _ _ w1 tt w2)
      by (apply Hr; [cbn; tauto | reflexivity]).
    rewrite (try_catch_step _ _ _ w2 tt w3)
      by (apply Hr; [cbn; tauto | reflexivity]).
    rewrite (try_catch_step _ _ _ w3 tt w4)
      by (apply Hr; [cbn; tauto | reflexivity]).
    reflexivity. }
  assert (K4 : keeps_listeners w w4).
  { repeat (eapply keeps_listeners_trans;
            [| apply keeps_listeners_started]).
    apply keeps_listeners_refl. }
  subst r. unfold effects_of. rewrite E. unfold try_catch.
  rewrite start_stream_eq.
  replace (rowing (services (this w4))) with (Some svc)
    by (symmetry; exact Hsvc).
  cbv zeta.
  destruct (o (GetCharacteristic svc (MULTIPLEXED_INFORMATION K)));
    [destruct (o (StartNotifications (svc, MULTIPLEXED_INFORMATION K))) |];
    cbn [fst snd andb mret];
    (split; [reflexivity |]);
    (split; [first [eapply keeps_listeners_trans;
                      [exact K4 | apply keeps_listeners_started]
                   | eapply keeps_listeners_trans;
                      [exact K4 | apply keeps_listeners_logged]] |]);
    (split; [unfold w4, w3, w2, w1;
             cbn [stream_started logged plat next_function]; lia |]);
    cbn [stream_started logged trace w4 w3 w2 w1];
    rewrite <- ?app_assoc, drop_app_length;
    repeat constructor; eexists; reflexivity.
Qed.

(** The theorem in the sample session when the platform has no multiplexed
    characteristic. *)
Lemma startRowingDataNotifications_csafe_multiplexed_optional_witness :
  fst (startRowingDataNotifications_csafe sample_constants
         (rejects (GetCharacteristic "rowing" "multiplexed-information"))
         connected_session) = inr tt.
Proof.
  apply (startRowingDataNotifications_csafe_multiplexed_optional
           sample_constants
           (rejects (GetCharacteristic "rowing" "multiplexed-information"))
           "rowing" connected_session);
    [reflexivity |].
  intros u Hu. cbn in Hu.
  destruct Hu as [<- | [<- | [<- | [<- | []]]]]; split; reflexivity.
Defined.

(** X23.  The CSAFE variant of [handleDisconnected] resets [isConnected]
    and nothing else: the server, the services and the listeners stay.  A
    later [startRowingDataNotifications] therefore does not stop at a missing
    service: it goes to the platform again, its first effect is the request
    for the general status characteristic, and it can fail only with a
    rejection by the platform. *)
Theorem handleDisconnected_csafe_keeps_services K o svc w :
  rowing (services (this w)) = Some svc ->
  let w' := snd (handleDisconnected_csafe w) in
  let r := startRowingDataNotifications_csafe K o w' in
  this w' = set_isConnected false (this w) /\
  plat w' = plat w /\
  trace w' = trace w ++ (if onDisconnected (on (this w))
                         then [CallOnDisconnected] else []) /\
  head (effects_of (startRowingDataNotifications_csafe K o) w') =
    Some (Issued (GetCharacteristic svc (GENERAL_STATUS K))) /\
  match fst r with
  | inl e => exists c, e = Rejected c /\ o c = false
  | inr _ => True
  end.
Proof.
  intros Hsvc w' r.
  assert (Ht : this w' = set_isConnected false (this w) /\
               plat w' = plat w /\
               trace w' = trace w ++ (if onDisconnected (on (this w))
                                      then [CallOnDisconnected] else [])).
  { subst w'. unfold handleDisconnected_csafe, mbind, modify_this, get_this,
      when, emit, mret. cbn.
    destruct (onDisconnected (on (this w))); cbn;
      rewrite ?app_nil_r; repeat split. }
  destruct Ht as (Ht & Hp & Htr).
  split; [exact Ht |]. split; [exact Hp |]. split; [exact Htr |].
  assert (Hsvc' : rowing (services (this w')) = Some svc)
    by (rewrite Ht; exact Hsvc).
  subst r. clearbody w'. clear Ht Hp Htr Hsvc w.
  destruct w' as [[srv [i c r] chars conn cbs ncs act] p t].
  cbn in Hsvc'. subst r.
  unfold effects_of, startRowingDataNotifications_csafe, start_stream,
    getCharacteristic, defined, request, try_catch, mbind, new_function,
    addEventListener, emit, get_this, console_error, mret, mthrow.
  cbn [this services rowing plat trace fst snd next_function listeners].
  by_outcome o;
    (split;
     [rewrite <- ?app_assoc, drop_app_length; reflexivity
     | first [exact I | eexists; split; [reflexivity | assumption]]]).
Qed.

(** The theorem in the sample session. *)
Lemma handleDisconnected_csafe_keeps_services_witness :
  isConnected (this (snd (handleDisconnected_csafe connected_session)))
    = false.
Proof.
  pose proof (handleDisconnected_csafe_keeps_services sample_constants
                resolves "rowing" connected_session eq_refl) as (H & _).
  rewrite H. reflexivity.
Defined.
